(** * salt/modules/boto3_asg.py: [get_config]

    A shallow embedding of [get_config], the routine that reads the
    configuration of one autoscale group, and the properties of it that the
    specification states.

    Python values are a small universe [pyval]; the three collaborator calls
    (boto3's paginated describe, boto's [get_all_policies] and
    [get_all_scheduled_actions]) are the fields of a [provider] acting on an
    abstract world; exceptions are a [result]; the body of the [try] block and
    the retry loop live in a state-and-exception monad whose state is the
    world together with a trace of the observable events (collaborator calls,
    sleeps, log records).

    Python 3 semantics is followed throughout: dictionaries keep insertion
    order, and ordering values of unrelated kinds raises [TypeError]. *)

From Stdlib Require Import String Ascii ZArith List Bool Lia.
From Stdlib Require Import Sorting.Sorted Sorting.Permutation.
Import ListNotations.
Open Scope string_scope.
Open Scope Z_scope.

(** ** Python values *)

(** A float is kept as what it denotes: not-a-number, an infinity, or the
    dyadic rational [m * 2^e].  No floating-point arithmetic is performed on
    it; only [int()] and truthiness look at it. *)
Inductive pyfloat : Type :=
| FNan
| FInf (negative : bool)
| FFinite (m e : Z).

(** [datetime.datetime]: the calendar fields and, for an aware value, the
    offset from UTC in seconds. *)
Record datetime : Type := mkDatetime {
  dt_year : Z;
  dt_month : Z;
  dt_day : Z;
  dt_hour : Z;
  dt_minute : Z;
  dt_second : Z;
  dt_microsecond : Z;
  dt_utcoffset : option Z
}.

(** Dictionaries have string keys and remember insertion order, which is what
    both [OrderedDict] and the built-in [dict] do. *)
#[local] Unset Elimination Schemes.
Inductive pyval : Type :=
| VNone
| VBool (b : bool)
| VInt (z : Z)
| VFloat (f : pyfloat)
| VStr (s : string)
| VDatetime (d : datetime)
| VList (l : list pyval)
| VDict (d : list (string * pyval)).
#[local] Set Elimination Schemes.

Definition odict : Type := list (string * pyval).

(** ** Exceptions *)

Inductive exn : Type :=
| BotoServerError (code : string)
| KeyError (key : string)
| AttributeError (attr : string)
| TypeError
| ValueError
| OverflowError
| OtherError (cls : string).

Inductive result (A : Type) : Type :=
| Ok (a : A)
| Raise (e : exn).
Arguments Ok {A} a.
Arguments Raise {A} e.

Definition rbind {A B : Type} (r : result A) (k : A -> result B) : result B :=
  match r with
  | Ok a => k a
  | Raise e => Raise e
  end.

Notation "'let*' x ':=' r 'in' k" := (rbind r (fun x => k))
  (at level 10, x name, r at level 100, k at level 200).

Fixpoint rmap {A B : Type} (f : A -> result B) (l : list A) : result (list B) :=
  match l with
  | [] => Ok []
  | a :: l' =>
      let* b := f a in
      let* bs := rmap f l' in
      Ok (b :: bs)
  end.

(** ** Built-ins used by [get_config] *)

(** Truth value of an object, as tested by [if not asg] and
    [if action.end_time]. *)
Definition truthy (v : pyval) : bool :=
  match v with
  | VNone => false
  | VBool b => b
  | VInt z => negb (z =? 0)
  | VFloat (FFinite m _) => negb (m =? 0)
  | VFloat _ => true
  | VStr s => negb (s =? "")%string
  | VDatetime _ => true
  | VList l => match l with [] => false | _ => true end
  | VDict d => match d with [] => false | _ => true end
  end.

(** [d[k]] for reading. *)
Fixpoint od_get (k : string) (d : odict) : option pyval :=
  match d with
  | [] => None
  | (k', v) :: d' => if (k' =? k)%string then Some v else od_get k d'
  end.

(** [d[k] = v]: an existing key keeps its position, a new key goes last. *)
Fixpoint od_set (k : string) (v : pyval) (d : odict) : odict :=
  match d with
  | [] => [(k, v)]
  | (k', v') :: d' =>
      if (k' =? k)%string then (k', v) :: d' else (k', v') :: od_set k v d'
  end.

(** [obj[key]] with a string key: defined on dictionaries, [KeyError] when the
    key is missing; a string or a list wants an integer index and the other
    kinds are not subscriptable. *)
Definition getitem (obj : pyval) (key : string) : result pyval :=
  match obj with
  | VDict d =>
      match od_get key d with
      | Some v => Ok v
      | None => Raise (KeyError key)
      end
  | _ => Raise TypeError
  end.

Fixpoint chars (s : string) : list pyval :=
  match s with
  | EmptyString => []
  | String c s' => VStr (String c EmptyString) :: chars s'
  end.

(** The items a [for] loop (or [iter]) goes through. *)
Definition py_iter (v : pyval) : result (list pyval) :=
  match v with
  | VList l => Ok l
  | VStr s => Ok (chars s)
  | VDict d => Ok (map (fun kv => VStr (fst kv)) d)
  | _ => Raise TypeError
  end.

(** [next(iter(v), None)] *)
Definition next_or_none (v : pyval) : result pyval :=
  let* items := py_iter v in
  Ok (match items with [] => VNone | x :: _ => x end).

(** [s.split(sep)] for a one-character separator: every occurrence of the
    separator cuts, so the result has one more piece than there are
    separators. *)
Fixpoint split_on (sep : ascii) (s : string) : list string :=
  match s with
  | EmptyString => [EmptyString]
  | String c s' =>
      if Ascii.eqb c sep then EmptyString :: split_on sep s'
      else match split_on sep s' with
           | [] => [String c EmptyString]
           | piece :: pieces => String c piece :: pieces
           end
  end.

(** [v.split(",")]: only a string has the method. *)
Definition py_split_comma (v : pyval) : result pyval :=
  match v with
  | VStr s => Ok (VList (map VStr (split_on "," s)))
  | _ => Raise (AttributeError "split")
  end.

(** [a < b] on floats, by the numbers they denote: nothing is below or above
    not-a-number, and two finite values are compared exactly. *)
Definition float_lt (a b : pyfloat) : bool :=
  match a, b with
  | FNan, _ => false
  | _, FNan => false
  | FInf na, FInf nb => na && negb nb
  | FInf na, FFinite _ _ => na
  | FFinite _ _, FInf nb => negb nb
  | FFinite m1 e1, FFinite m2 e2 =>
      let e := Z.min e1 e2 in
      m1 * 2 ^ (e1 - e) <? m2 * 2 ^ (e2 - e)
  end.

(** [a < b].  Strings are ordered by code point (for UTF-8 text that is the
    order of the bytes); integers, booleans and floats numerically, also
    with one another.  For operands of any other kinds the model answers
    [TypeError], which is what Python 3 does for unrelated kinds, [None] and
    dictionaries; the ordering of lists and of datetimes among themselves is
    not modelled. *)
Definition py_lt (a b : pyval) : result bool :=
  match a, b with
  | VStr s, VStr t => Ok (String.ltb s t)
  | VInt x, VInt y => Ok (x <? y)
  | VInt x, VBool y => Ok (x <? Z.b2z y)
  | VBool x, VInt y => Ok (Z.b2z x <? y)
  | VBool x, VBool y => Ok (Z.b2z x <? Z.b2z y)
  | VFloat x, VFloat y => Ok (float_lt x y)
  | VFloat x, VInt y => Ok (float_lt x (FFinite y 0))
  | VInt x, VFloat y => Ok (float_lt (FFinite x 0) y)
  | VFloat x, VBool y => Ok (float_lt x (FFinite (Z.b2z y) 0))
  | VBool x, VFloat y => Ok (float_lt (FFinite (Z.b2z x) 0) y)
  | _, _ => Raise TypeError
  end.

(** [sorted(l)]: a stable sort that only asks [<].  A list of fewer than two
    items is never compared. *)
Fixpoint py_insert (x : pyval) (l : list pyval) : result (list pyval) :=
  match l with
  | [] => Ok [x]
  | y :: l' =>
      let* lt := py_lt y x in
      if lt then
        let* r := py_insert x l' in
        Ok (y :: r)
      else Ok (x :: y :: l')
  end.

Fixpoint sorted (l : list pyval) : result (list pyval) :=
  match l with
  | [] => Ok []
  | x :: l' =>
      let* s := sorted l' in
      py_insert x s
  end.

(** *** [int()] *)

(** The white space [int()] strips: tab, line feed, vertical tab, form feed,
    carriage return and space. *)
Definition is_space (c : ascii) : bool :=
  let n := Z.of_N (N_of_ascii c) in
  ((9 <=? n) && (n <=? 13)) || (n =? 32).

Definition digit_val (c : ascii) : option Z :=
  let n := Z.of_N (N_of_ascii c) in
  if (48 <=? n) && (n <=? 57) then Some (n - 48) else None.

Fixpoint lstrip (l : list ascii) : list ascii :=
  match l with
  | c :: l' => if is_space c then lstrip l' else l
  | [] => []
  end.

Definition strip (l : list ascii) : list ascii :=
  rev (lstrip (rev (lstrip l))).

(** Decimal digits, with single underscores allowed between two digits. *)
Fixpoint int_digits (l : list ascii) (acc : Z) (after_digit : bool) : option Z :=
  match l with
  | [] => if after_digit then Some acc else None
  | c :: l' =>
      match digit_val c with
      | Some d => int_digits l' (10 * acc + d) true
      | None =>
          if Ascii.eqb c "_" && after_digit then int_digits l' acc false
          else None
      end
  end.

(** [int(s)] for a string: surrounding white space, an optional sign, then
    the digits.  The model reads ASCII text only (the decimal digits and
    spaces of other scripts, which [int()] also reads, are refused) and has
    no bound on the number of digits (CPython refuses more than 4300 by
    default). *)
Definition int_of_string (s : string) : option Z :=
  match strip (list_ascii_of_string s) with
  | c :: l' =>
      if Ascii.eqb c "-" then option_map Z.opp (int_digits l' 0 false)
      else if Ascii.eqb c "+" then int_digits l' 0 false
      else int_digits (c :: l') 0 false
  | [] => None
  end.

(** [int(f)] for a float truncates towards zero. *)
Definition int_of_float (f : pyfloat) : result Z :=
  match f with
  | FNan => Raise ValueError
  | FInf _ => Raise OverflowError
  | FFinite m e =>
      if 0 <=? e then Ok (m * 2 ^ e) else Ok (Z.quot m (2 ^ (- e)))
  end.

Definition py_int (v : pyval) : result pyval :=
  match v with
  | VInt z => Ok (VInt z)
  | VBool b => Ok (VInt (Z.b2z b))
  | VFloat f => let* z := int_of_float f in Ok (VInt z)
  | VStr s =>
      match int_of_string s with
      | Some z => Ok (VInt z)
      | None => Raise ValueError
      end
  | VNone | VDatetime _ | VList _ | VDict _ => Raise TypeError
  end.

(** *** [datetime.isoformat()] *)

Definition digit (z : Z) : ascii := ascii_of_N (Z.to_N (48 + z mod 10)).

Definition pad2 (z : Z) (rest : string) : string :=
  String (digit (z / 10)) (String (digit z) rest).

Definition pad4 (z : Z) (rest : string) : string :=
  pad2 (z / 100) (pad2 z rest).

Definition pad6 (z : Z) (rest : string) : string :=
  pad2 (z / 10000) (pad4 z rest).

(** The offset of an aware datetime: sign, hours and minutes, and the seconds
    when they are not zero. *)
Definition iso_offset (off : option Z) : string :=
  match off with
  | None => ""
  | Some o =>
      let a := Z.abs o in
      String (if o <? 0 then "-"%char else "+"%char)
        (pad2 (a / 3600)
           (String ":"
              (pad2 (a / 60 mod 60)
                 (if a mod 60 =? 0 then ""
                  else String ":" (pad2 (a mod 60) "")))))
  end.

(** [d.isoformat()]: [YYYY-MM-DDTHH:MM:SS], then the microseconds when they are
    not zero, then the offset of an aware value (a whole number of
    seconds). *)
Definition isoformat (d : datetime) : string :=
  pad4 (dt_year d)
    (String "-" (pad2 (dt_month d)
       (String "-" (pad2 (dt_day d)
          (String "T" (pad2 (dt_hour d)
             (String ":" (pad2 (dt_minute d)
                (String ":" (pad2 (dt_second d)
                   ((if dt_microsecond d =? 0 then ""
                     else String "." (pad6 (dt_microsecond d) ""))
                    ++ iso_offset (dt_utcoffset d)))))))))))).

(** [v.isoformat()]: only a datetime has the method. *)
Definition py_isoformat (v : pyval) : result pyval :=
  match v with
  | VDatetime d => Ok (VStr (isoformat d))
  | _ => Raise (AttributeError "isoformat")
  end.

(** Recogniser of the ISO-8601 shapes above. *)
Definition is_digit (c : ascii) : bool :=
  match digit_val c with Some _ => true | None => false end.

Fixpoint eat (pattern : list (ascii -> bool)) (s : string) : option string :=
  match pattern with
  | [] => Some s
  | p :: pattern' =>
      match s with
      | String c s' => if p c then eat pattern' s' else None
      | EmptyString => None
      end
  end.

Definition is_char (c : ascii) : ascii -> bool := Ascii.eqb c.
Definition is_sign (c : ascii) : bool := Ascii.eqb c "+" || Ascii.eqb c "-".

Definition dd : list (ascii -> bool) := [is_digit; is_digit].

Definition iso_date_time : list (ascii -> bool) :=
  dd ++ dd ++ [is_char "-"] ++ dd ++ [is_char "-"] ++ dd ++ [is_char "T"]
     ++ dd ++ [is_char ":"] ++ dd ++ [is_char ":"] ++ dd.

Definition iso_fraction : list (ascii -> bool) := [is_char "."] ++ dd ++ dd ++ dd.
Definition iso_zone : list (ascii -> bool) := [is_sign] ++ dd ++ [is_char ":"] ++ dd.
Definition iso_zone_seconds : list (ascii -> bool) := [is_char ":"] ++ dd.

Definition optional (pattern : list (ascii -> bool)) (s : string) : string :=
  match eat pattern s with
  | Some s' => s'
  | None => s
  end.

Definition is_iso8601 (s : string) : bool :=
  match eat iso_date_time s with
  | Some s1 =>
      let s2 := optional iso_fraction s1 in
      match eat iso_zone s2 with
      | Some s3 => (optional iso_zone_seconds s3 =? "")%string
      | None => (s2 =? "")%string
      end
  | None => false
  end.

(** ** Collaborators *)

(** A boto [ScalingPolicy] object: the attributes [get_config] reads. *)
Record policy : Type := mkPolicy {
  policy_name : pyval;
  policy_adjustment_type : pyval;
  policy_scaling_adjustment : pyval;
  policy_min_adjustment_step : pyval;
  policy_cooldown : pyval
}.

(** A boto [ScheduledUpdateGroupAction] object.  Its name is used as a
    dictionary key and is a string. *)
Record action : Type := mkAction {
  action_name : string;
  action_min_size : pyval;
  action_max_size : pyval;
  action_desired_capacity : pyval;
  action_start_time : pyval;
  action_end_time : pyval;
  action_recurrence : pyval
}.

(** What can be observed of a run besides its result. *)
Inductive event : Type :=
| EvDescribe (name : string)
| EvGetAllPolicies (name : string)
| EvGetAllScheduledActions (name : string)
| EvLogDebug (msg : string)
| EvSleep (seconds : Z)
| EvLogError (e : exn).

(** The environment of a call.  [describe_auto_scaling_groups name] stands for
    [client.get_paginator("describe_auto_scaling_groups")
       .paginate(AutoScalingGroupNames=[name]).build_full_result()];
    the two other calls are the methods of the boto connection; [time_sleep]
    lets the world move while the caller sleeps.  Each call answers with a
    value or raises, and may change the world. *)
Record provider (W : Type) : Type := mkProvider {
  describe_auto_scaling_groups : string -> W -> result pyval * W;
  get_all_policies : string -> W -> result (list policy) * W;
  get_all_scheduled_actions : string -> W -> result (list action) * W;
  time_sleep : Z -> W -> W
}.
Arguments describe_auto_scaling_groups {W} _ _ _.
Arguments get_all_policies {W} _ _ _.
Arguments get_all_scheduled_actions {W} _ _ _.
Arguments time_sleep {W} _ _ _.

(** ** The normalisation of one group record (no collaborator involved) *)

Definition attr_key_lookup : list (string * string) :=
  [ ("name", "AutoScalingGroupName");
    ("availability_zones", "AvailabilityZones");
    ("default_cooldown", "DefaultCooldown");
    ("desired_capacity", "DesiredCapacity");
    ("health_check_period", "HealthCheckGracePeriod");
    ("health_check_type", "HealthCheckType");
    ("launch_config_name", "LaunchConfigurationName");
    ("load_balancers", "LoadBalancerNames");
    ("max_size", "MaxSize");
    ("min_size", "MinSize");
    ("vpc_zone_identifier", "VPCZoneIdentifier");
    ("tags", "Tags");
    ("termination_policies", "TerminationPolicies");
    ("suspended_processes", "SuspendedProcesses") ].

(** One turn of [for tag in asg[keyname]]. *)
Definition tag_record (tag : pyval) : result pyval :=
  let* k := getitem tag "Key" in
  let* v := getitem tag "Value" in
  let* p := getitem tag "PropagateAtLaunch" in
  Ok (VDict (od_set "propagate_at_launch" p (od_set "value" v (od_set "key" k [])))).

Definition process_name (p : pyval) : result pyval := getitem p "ProcessName".

(** One turn of [for attr, keyname in attr_key_lookup.items()]. *)
Definition set_attr (asg : pyval) (ret : odict) (attr keyname : string)
  : result odict :=
  if (attr =? "tags")%string then
    let* raw := getitem asg keyname in
    let* tags := py_iter raw in
    let* _tags := rmap tag_record tags in
    Ok (od_set "tags" (VList _tags) ret)
  else if (attr =? "vpc_zone_identifier")%string then
    let* raw := getitem asg keyname in
    let* pieces := py_split_comma raw in
    Ok (od_set attr pieces ret)
  else if (attr =? "suspended_processes")%string then
    let* raw := getitem asg keyname in
    let* ps := py_iter raw in
    let* names := rmap process_name ps in
    let* names' := sorted names in
    Ok (od_set attr (VList names') ret)
  else if (attr =? "placement_group")%string then
    Ok ret
  else
    let* raw := getitem asg keyname in
    Ok (od_set attr raw ret).

Fixpoint copy_attrs (asg : pyval) (items : list (string * string)) (ret : odict)
  : result odict :=
  match items with
  | [] => Ok ret
  | (attr, keyname) :: items' =>
      let* ret' := set_attr asg ret attr keyname in
      copy_attrs asg items' ret'
  end.
Arguments copy_attrs : simpl never.

Definition policy_dict (p : policy) : pyval :=
  VDict [ ("name", policy_name p);
          ("adjustment_type", policy_adjustment_type p);
          ("scaling_adjustment", policy_scaling_adjustment p);
          ("min_adjustment_step", policy_min_adjustment_step p);
          ("cooldown", policy_cooldown p) ].

(** The body of [for action in actions] up to the assignment: [end_time] is
    worked out first, then the entries in the order they are written. *)
Definition action_dict (a : action) : result pyval :=
  let* end_time :=
    (if truthy (action_end_time a) then py_isoformat (action_end_time a)
     else Ok VNone) in
  let* desired := py_int (action_desired_capacity a) in
  let* start_time := py_isoformat (action_start_time a) in
  Ok (VDict [ ("min_size", action_min_size a);
              ("max_size", action_max_size a);
              ("desired_capacity", desired);
              ("start_time", start_time);
              ("end_time", end_time);
              ("recurrence", action_recurrence a) ]).

Fixpoint set_actions (actions : list action) (d : odict) : result odict :=
  match actions with
  | [] => Ok d
  | a :: actions' =>
      let* entry := action_dict a in
      set_actions actions' (od_set (action_name a) entry d)
  end.

(** ** [get_config] *)

Section GetConfig.

Context {W : Type} (P : provider W).

(** The world and the events so far, oldest first. *)
Definition state : Type := W * list event.

Definition M (A : Type) : Type := state -> result A * state.

Definition ret {A : Type} (a : A) : M A := fun st => (Ok a, st).

Definition bind {A B : Type} (m : M A) (k : A -> M B) : M B :=
  fun st =>
    match m st with
    | (Ok a, st') => k a st'
    | (Raise e, st') => (Raise e, st')
    end.

Definition lift {A : Type} (r : result A) : M A := fun st => (r, st).

Definition emit (ev : event) (st : state) : state :=
  (fst st, (snd st ++ [ev])%list).

Definition call {A : Type} (ev : event) (f : W -> result A * W) : M A :=
  fun st =>
    let (r, w') := f (fst st) in
    (r, (w', (snd st ++ [ev])%list)).

Definition sleep (seconds : Z) (st : state) : state :=
  (time_sleep P seconds (fst st), (snd st ++ [EvSleep seconds])%list).

Notation "x <- m ;; k" := (bind m (fun x => k))
  (at level 61, m at next level, right associativity).

(** The body of the [try] block, lines 141 to 205. *)
Definition try_body (name : string) : M pyval :=
  full <- call (EvDescribe name) (describe_auto_scaling_groups P name) ;;
  groups <- lift (getitem full "AutoScalingGroups") ;;
  asg <- lift (next_or_none groups) ;;
  if negb (truthy asg) then ret (VDict [])
  else
    r <- lift (copy_attrs asg attr_key_lookup []) ;;
    policies <- call (EvGetAllPolicies name) (get_all_policies P name) ;;
    let r1 := od_set "scaling_policies" (VList (map policy_dict policies)) r in
    actions <- call (EvGetAllScheduledActions name)
                    (get_all_scheduled_actions P name) ;;
    scheduled <- lift (set_actions actions []) ;;
    ret (VDict (od_set "scheduled_actions" (VDict scheduled) r1)).

(** [while True: try: ... except boto.exception.BotoServerError as e: ...]
    with [retries] attempts left to give away.  Every [continue] has taken
    one off [retries], which is what the recursion follows. *)
Fixpoint get_config_loop (retries : nat) (name : string) (st : state)
  : result pyval * state :=
  match try_body name st with
  | (Ok v, st') => (Ok v, st')
  | (Raise (BotoServerError code), st') =>
      match retries with
      | S retries' =>
          if (code =? "Throttling")%string then
            get_config_loop retries' name
              (sleep 5
                 (emit (EvLogDebug "Throttled by AWS API, retrying in 5 seconds...")
                       st'))
          else (Ok (VDict []), emit (EvLogError (BotoServerError code)) st')
      | O => (Ok (VDict []), emit (EvLogError (BotoServerError code)) st')
      end
  | (Raise e, st') => (Raise e, st')
  end.

(** [get_config name]: [retries = 30], then the loop.  The two lines before
    the loop, which obtain the boto connection and the boto3 client, are the
    collaborators being handed over and are taken to succeed. *)
Definition get_config (name : string) (w : W) : result pyval * state :=
  get_config_loop 30 name (w, []).

End GetConfig.

(** ** Vocabulary of the properties *)

Definition is_sleep (ev : event) : bool :=
  match ev with EvSleep _ => true | _ => false end.

Definition is_describe (ev : event) : bool :=
  match ev with EvDescribe _ => true | _ => false end.

Definition is_log_error (ev : event) : bool :=
  match ev with EvLogError _ => true | _ => false end.

(** How often a run slept, and how often it asked for the group. *)
Definition sleeps (tr : list event) : nat := length (filter is_sleep tr).
Definition attempts (tr : list event) : nat := length (filter is_describe tr).
Definition errors_logged (tr : list event) : nat := length (filter is_log_error tr).

Definition value_of {A S : Type} (run : result A * S) : result A := fst run.
Definition trace_of {A W : Type} (run : result A * (W * list event)) : list event :=
  snd (snd run).

(** What steps 3 to 6 make of a group record, its policies and its actions. *)
Definition assemble (asg : pyval) (policies : list policy) (actions : list action)
  : result pyval :=
  let* r := copy_attrs asg attr_key_lookup [] in
  let* scheduled := set_actions actions [] in
  Ok (VDict (od_set "scheduled_actions" (VDict scheduled)
               (od_set "scaling_policies" (VList (map policy_dict policies)) r))).

(** The last action of a list that carries a given name. *)
Definition last_named (k : string) (actions : list action) : option action :=
  find (fun a => (action_name a =? k)%string) (rev actions).

Fixpoint comma_free (s : string) : bool :=
  match s with
  | EmptyString => true
  | String c s' => negb (Ascii.eqb c ",") && comma_free s'
  end.




Definition the_keys : list string :=
  [ "name"; "availability_zones"; "default_cooldown"; "desired_capacity";
    "health_check_period"; "health_check_type"; "launch_config_name";
    "load_balancers"; "max_size"; "min_size"; "vpc_zone_identifier"; "tags";
    "termination_policies"; "suspended_processes"; "scaling_policies";
    "scheduled_actions" ].

Definition log_throttled : event :=
  EvLogDebug "Throttled by AWS API, retrying in 5 seconds...".

Section Runs.

Context {W : Type} (P : provider W).

(** The describe call found a group. *)
Definition described (name : string) (w : W) (asg : pyval) (w1 : W) : Prop :=
  exists full groups,
    describe_auto_scaling_groups P name w = (Ok full, w1) /\
    getitem full "AutoScalingGroups" = Ok groups /\
    next_or_none groups = Ok asg /\
    truthy asg = true.

(** An attempt that went through: the group, the policies and the actions
    the collaborators answered with, from state [st] to state [st']. *)
Definition fetched (name : string) (st : state) (asg : pyval)
           (policies : list policy) (actions : list action) (st' : state)
  : Prop :=
  exists w1 w2 w3,
    described name (fst st) asg w1 /\
    get_all_policies P name w1 = (Ok policies, w2) /\
    get_all_scheduled_actions P name w2 = (Ok actions, w3) /\
    st' = (w3, (snd st ++ [EvDescribe name; EvGetAllPolicies name;
                           EvGetAllScheduledActions name])%list).

(** An attempt in which steps 1 to 3 went through and the policy fetch or
    the action fetch raised [e]. *)
Definition failed_late (name : string) (st : state) (e : exn) (st' : state)
  : Prop :=
  exists asg r w1,
    described name (fst st) asg w1 /\
    copy_attrs asg attr_key_lookup [] = Ok r /\
    ((exists w2,
         get_all_policies P name w1 = (Raise e, w2) /\
         st' = (w2, (snd st ++ [EvDescribe name; EvGetAllPolicies name])%list))
     \/
     (exists policies w2 w3,
         get_all_policies P name w1 = (Ok policies, w2) /\
         get_all_scheduled_actions P name w2 = (Raise e, w3) /\
         st' = (w3, (snd st ++ [EvDescribe name; EvGetAllPolicies name;
                                EvGetAllScheduledActions name])%list))).

(** [throttles name n w w']: from world [w] the describe call raises the
    error the handler retries on, a [BotoServerError] with code [Throttling],
    [n] times in a row, the caller sleeping five seconds after each, and the
    world is then [w'].  That is the throttling error of a boto connection;
    the boto3 client, through which [get_config] makes the describe call,
    reports throttling with an exception of botocore instead. *)
Inductive throttles (name : string) : nat -> W -> W -> Prop :=
| throttles_O : forall w, throttles name O w w
| throttles_S : forall n w w1 w',
    describe_auto_scaling_groups P name w
      = (Raise (BotoServerError "Throttling"), w1) ->
    throttles name n (time_sleep P 5 w1) w' ->
    throttles name (S n) w w'.

(** The events of [n] throttled attempts. *)
Fixpoint retried (name : string) (n : nat) : list event :=
  match n with
  | O => []
  | S n' => EvDescribe name :: log_throttled :: EvSleep 5 :: retried name n'
  end.

End Runs.

(** ** A scripted collaborator, for running [get_config] on examples *)

(** Each call takes the next answer of its script; a script that is used up
    keeps giving its last-resort answer.  Sleeping changes nothing. *)
Record script : Type := mkScript {
  describe_answers : list (result pyval);
  describe_then : result pyval;
  policies_answers : list (result (list policy));
  policies_then : result (list policy);
  actions_answers : list (result (list action));
  actions_then : result (list action)
}.

Definition next_answer {A : Type} (answers : list A) (otherwise : A) : A * list A :=
  match answers with
  | [] => (otherwise, [])
  | a :: answers' => (a, answers')
  end.

Definition scripted : provider script :=
  {| describe_auto_scaling_groups := fun _ s =>
       let (r, rest) := next_answer (describe_answers s) (describe_then s) in
       (r, mkScript rest (describe_then s)
                    (policies_answers s) (policies_then s)
                    (actions_answers s) (actions_then s));
     get_all_policies := fun _ s =>
       let (r, rest) := next_answer (policies_answers s) (policies_then s) in
       (r, mkScript (describe_answers s) (describe_then s)
                    rest (policies_then s)
                    (actions_answers s) (actions_then s));
     get_all_scheduled_actions := fun _ s =>
       let (r, rest) := next_answer (actions_answers s) (actions_then s) in
       (r, mkScript (describe_answers s) (describe_then s)
                    (policies_answers s) (policies_then s)
                    rest (actions_then s));
     time_sleep := fun _ s => s |}.

Definition throttling {A : Type} : result A := Raise (BotoServerError "Throttling").

(** The group of the specification's end-to-end example, with the fields the
    example leaves out filled in. *)
Definition web_asg_with (vpc : pyval) : pyval :=
  VDict [ ("AutoScalingGroupName", VStr "web-asg");
          ("AvailabilityZones", VList [VStr "us-east-1a"]);
          ("DefaultCooldown", VInt 300);
          ("DesiredCapacity", VInt 4);
          ("HealthCheckGracePeriod", VInt 0);
          ("HealthCheckType", VStr "EC2");
          ("LaunchConfigurationName", VStr "web-lc");
          ("LoadBalancerNames", VList []);
          ("MaxSize", VInt 10);
          ("MinSize", VInt 2);
          ("VPCZoneIdentifier", vpc);
          ("Tags", VList [VDict [("Key", VStr "env"); ("Value", VStr "prod");
                                 ("PropagateAtLaunch", VBool true)]]);
          ("TerminationPolicies", VList [VStr "Default"]);
          ("SuspendedProcesses",
             VList [VDict [("ProcessName", VStr "Launch")];
                    VDict [("ProcessName", VStr "AddToLoadBalancer")]]) ].

Definition web_asg : pyval := web_asg_with (VStr "subnet-a,subnet-b").

Definition found (asg : pyval) : result pyval :=
  Ok (VDict [("AutoScalingGroups", VList [asg])]).

Definition not_found : result pyval :=
  Ok (VDict [("AutoScalingGroups", VList [])]).

Definition t0 : datetime := mkDatetime 2024 3 1 2 0 0 0 None.

Definition nightly_scale_with (desired : pyval) : action :=
  mkAction "nightly-scale" (VInt 1) (VInt 5) desired
           (VDatetime t0) VNone (VStr "0 2 * * *").

Definition nightly_scale : action := nightly_scale_with (VStr "3").

(** A world in which the group exists, has no policy and one scheduled
    action, and nothing ever fails. *)
Definition calm (asg : pyval) (actions : list action) : script :=
  mkScript [] (found asg) [] (Ok []) [] (Ok actions).

(** The record the specification's end-to-end example expects. *)
Definition web_record : pyval :=
  VDict [ ("name", VStr "web-asg");
          ("availability_zones", VList [VStr "us-east-1a"]);
          ("default_cooldown", VInt 300);
          ("desired_capacity", VInt 4);
          ("health_check_period", VInt 0);
          ("health_check_type", VStr "EC2");
          ("launch_config_name", VStr "web-lc");
          ("load_balancers", VList []);
          ("max_size", VInt 10);
          ("min_size", VInt 2);
          ("vpc_zone_identifier", VList [VStr "subnet-a"; VStr "subnet-b"]);
          ("tags", VList [VDict [("key", VStr "env"); ("value", VStr "prod");
                                 ("propagate_at_launch", VBool true)]]);
          ("termination_policies", VList [VStr "Default"]);
          ("suspended_processes", VList [VStr "AddToLoadBalancer"; VStr "Launch"]);
          ("scaling_policies", VList []);
          ("scheduled_actions",
             VDict [("nightly-scale",
                     VDict [ ("min_size", VInt 1);
                             ("max_size", VInt 5);
                             ("desired_capacity", VInt 3);
                             ("start_time", VStr "2024-03-01T02:00:00");
                             ("end_time", VNone);
                             ("recurrence", VStr "0 2 * * *") ])]) ].

Definition web_trace : list event :=
  [EvDescribe "web-asg"; EvGetAllPolicies "web-asg";
   EvGetAllScheduledActions "web-asg"].

(** Worlds for the retry behaviour: the describe call throttled for ever; the
    describe call throttled three times before the group is found; and the
    policy fetch failing once, with a throttling error or with another
    provider error, after the group was found. *)
Definition always_throttled : script :=
  mkScript [] throttling [] (Ok []) [] (Ok []).

Definition throttled_thrice : script :=
  mkScript [throttling; throttling; throttling] (found web_asg)
           [] (Ok []) [] (Ok [nightly_scale]).

Definition policies_failing_once (code : string) : script :=
  mkScript [] (found web_asg)
           [Raise (BotoServerError code)] (Ok [])
           [] (Ok [nightly_scale]).

Definition no_such_group : script :=
  mkScript [] not_found [] (Ok []) [] (Ok []).

(** The expected record with one entry replaced. *)
Definition web_record_with (key : string) (value : pyval) : pyval :=
  match web_record with
  | VDict entries => VDict (od_set key value entries)
  | other => other
  end.

(** A second action under the name of the first, this one with an end time,
    and the entry expected for it. *)
Definition t1 : datetime := mkDatetime 2024 3 1 6 30 0 0 None.

Definition nightly_scale_again : action :=
  mkAction "nightly-scale" (VInt 2) (VInt 8) (VInt 6)
           (VDatetime t0) (VDatetime t1) (VStr "0 3 * * *").

Definition nightly_scale_again_entry : pyval :=
  VDict [ ("min_size", VInt 2);
          ("max_size", VInt 8);
          ("desired_capacity", VInt 6);
          ("start_time", VStr "2024-03-01T02:00:00");
          ("end_time", VStr "2024-03-01T06:30:00");
          ("recurrence", VStr "0 3 * * *") ].

(** ** Further vocabulary: the other events, and shapes of data *)

Definition is_log_debug (ev : event) : bool :=
  match ev with EvLogDebug _ => true | _ => false end.

Definition is_policy_fetch (ev : event) : bool :=
  match ev with EvGetAllPolicies _ => true | _ => false end.

Definition is_action_fetch (ev : event) : bool :=
  match ev with EvGetAllScheduledActions _ => true | _ => false end.

Definition retries_logged (tr : list event) : nat :=
  length (filter is_log_debug tr).
Definition policy_fetches (tr : list event) : nat :=
  length (filter is_policy_fetch tr).
Definition action_fetches (tr : list event) : nat :=
  length (filter is_action_fetch tr).

(** The sleeps of a trace, in seconds. *)
Fixpoint slept (tr : list event) : list Z :=
  match tr with
  | [] => []
  | EvSleep seconds :: tr' => seconds :: slept tr'
  | _ :: tr' => slept tr'
  end.

(** The entries of the rename table whose value is copied as it is. *)
Definition copied_as_is : list (string * string) :=
  [ ("name", "AutoScalingGroupName");
    ("availability_zones", "AvailabilityZones");
    ("default_cooldown", "DefaultCooldown");
    ("desired_capacity", "DesiredCapacity");
    ("health_check_period", "HealthCheckGracePeriod");
    ("health_check_type", "HealthCheckType");
    ("launch_config_name", "LaunchConfigurationName");
    ("load_balancers", "LoadBalancerNames");
    ("max_size", "MaxSize");
    ("min_size", "MinSize");
    ("termination_policies", "TerminationPolicies") ].

(** A tag of the provider and the record made of it. *)
Definition tag_of (tag out : pyval) : Prop :=
  exists k v p,
    getitem tag "Key" = Ok k /\
    getitem tag "Value" = Ok v /\
    getitem tag "PropagateAtLaunch" = Ok p /\
    out = VDict [("key", k); ("value", v); ("propagate_at_launch", p)].

(** The distinct items of a list, in the order of their first occurrence. *)
Fixpoint first_occurrences (l : list string) (seen : list string) : list string :=
  match l with
  | [] => []
  | k :: l' =>
      if existsb (String.eqb k) seen then first_occurrences l' seen
      else k :: first_occurrences l' (seen ++ [k])
  end.

(** Worlds for the failures of the describe call, and a group that lacks a
    field. *)
Definition describe_failing (e : exn) : script :=
  mkScript [Raise e] (found web_asg) [] (Ok []) [] (Ok [nightly_scale]).

Definition asg_without_max_size : pyval :=
  VDict [ ("AutoScalingGroupName", VStr "web-asg");
          ("AvailabilityZones", VList [VStr "us-east-1a"]);
          ("DefaultCooldown", VInt 300);
          ("DesiredCapacity", VInt 4);
          ("HealthCheckGracePeriod", VInt 0);
          ("HealthCheckType", VStr "EC2");
          ("LaunchConfigurationName", VStr "web-lc");
          ("LoadBalancerNames", VList []) ].

Definition first_group_empty : script :=
  mkScript [] (Ok (VDict [("AutoScalingGroups", VList [VDict []; web_asg])]))
           [] (Ok []) [] (Ok [nightly_scale]).

(** Whether the [except] clause catches an exception. *)
Definition is_boto_server_error (e : exn) : bool :=
  match e with BotoServerError _ => true | _ => false end.

(** A policy of the provider and the dictionary made of it. *)
Definition policy_of (p : policy) (out : pyval) : Prop :=
  out = VDict [ ("name", policy_name p);
                ("adjustment_type", policy_adjustment_type p);
                ("scaling_adjustment", policy_scaling_adjustment p);
                ("min_adjustment_step", policy_min_adjustment_step p);
                ("cooldown", policy_cooldown p) ].

(** Actions for the examples: two names, the first one used twice; and an
    action without a start time. *)
Definition morning_scale : action :=
  mkAction "morning-scale" (VInt 2) (VInt 8) (VFloat (FFinite 3 1))
           (VDatetime t1) VNone VNone.

Definition web_policy : policy :=
  mkPolicy (VStr "scale-up") (VStr "ChangeInCapacity") (VInt 1) VNone (VInt 300).

Definition busy : script :=
  mkScript [] (found web_asg) [] (Ok [web_policy; web_policy])
           [] (Ok [nightly_scale; morning_scale; nightly_scale_again]).

(** What [get_config] returns in the world [busy]. *)
Definition busy_record : pyval :=
  match web_record_with "scheduled_actions"
          (VDict [ ("nightly-scale", nightly_scale_again_entry);
                   ("morning-scale",
                    VDict [ ("min_size", VInt 2);
                            ("max_size", VInt 8);
                            ("desired_capacity", VInt 6);
                            ("start_time", VStr "2024-03-01T06:30:00");
                            ("end_time", VNone);
                            ("recurrence", VNone) ]) ]) with
  | VDict entries =>
      VDict (od_set "scaling_policies"
               (VList [policy_dict web_policy; policy_dict web_policy]) entries)
  | other => other
  end.

Definition busy_trace_end : state := (busy, web_trace).

(** An answer of the describe call without the list of groups. *)
Definition answer_without_groups : script :=
  mkScript [] (Ok (VDict [("NextToken", VNone)])) [] (Ok []) [] (Ok []).

(** The describe call throttled once, the way the boto3 client reports it:
    with botocore's [ClientError], which is no [BotoServerError]. *)
Definition boto3_throttling : exn := OtherError "ClientError".

Definition throttled_once_by_boto3 : script :=
  mkScript [Raise boto3_throttling] (found web_asg)
           [] (Ok []) [] (Ok [nightly_scale]).

(** * Properties *)

(** ** The end-to-end example of the specification *)

Example end_to_end :
  get_config scripted "web-asg" (calm web_asg [nightly_scale])
  = (Ok web_record, (calm web_asg [nightly_scale], web_trace)).
Proof. reflexivity. Qed.

(** ** One attempt *)

Section Attempt.

Context {W : Type} (P : provider W).

Lemma od_set_truthy k v d : truthy (VDict (od_set k v d)) = true.
Proof.
  destruct d as [|[k' v'] d]; simpl; [reflexivity|].
  destruct (k' =? k)%string; reflexivity.
Qed.

(** The trace an attempt starts from is only ever extended. *)
Lemma try_body_frame name w tr :
  try_body P name (w, tr)
  = (value_of (try_body P name (w, [])),
     (fst (snd (try_body P name (w, []))),
      (tr ++ trace_of (try_body P name (w, [])))%list)).
Proof.
  unfold try_body, bind, call, lift, ret, value_of, trace_of; simpl.
  destruct (describe_auto_scaling_groups P name w) as [[full|e] w1]; simpl;
    [|reflexivity].
  destruct (getitem full "AutoScalingGroups") as [groups|e]; simpl;
    [|reflexivity].
  destruct (next_or_none groups) as [asg|e]; simpl; [|reflexivity].
  destruct (truthy asg); simpl; [|reflexivity].
  destruct (copy_attrs asg attr_key_lookup []) as [r|e]; simpl; [|reflexivity].
  destruct (get_all_policies P name w1) as [[policies|e] w2]; simpl;
    [|rewrite <- app_assoc; reflexivity].
  destruct (get_all_scheduled_actions P name w2) as [[actions|e] w3]; simpl;
    [|rewrite <- !app_assoc; reflexivity].
  destruct (set_actions actions []) as [d|e]; simpl;
    rewrite <- !app_assoc; reflexivity.
Qed.

(** An attempt that returns a non-empty record went through all three
    calls, and the record is what [assemble] makes of their answers. *)
Lemma try_body_record name st v st' :
  try_body P name st = (Ok v, st') ->
  truthy v = true ->
  exists asg policies actions,
    fetched P name st asg policies actions st' /\
    assemble asg policies actions = Ok v.
Proof.
  destruct st as [w tr].
  unfold try_body, bind, call, lift, ret, fetched, described; simpl.
  destruct (describe_auto_scaling_groups P name w) as [[full|e] w1] eqn:Hd;
    simpl; [|discriminate].
  destruct (getitem full "AutoScalingGroups") as [groups|e] eqn:Hg; simpl;
    [|discriminate].
  destruct (next_or_none groups) as [asg|e] eqn:Hn; simpl; [|discriminate].
  destruct (truthy asg) eqn:Ht; simpl;
    [|intros H; inversion H; subst; discriminate].
  destruct (copy_attrs asg attr_key_lookup []) as [r|e] eqn:Hc; simpl;
    [|discriminate].
  destruct (get_all_policies P name w1) as [[policies|e] w2] eqn:Hp; simpl;
    [|discriminate].
  destruct (get_all_scheduled_actions P name w2) as [[actions|e] w3] eqn:Ha;
    simpl; [|discriminate].
  destruct (set_actions actions []) as [d|e] eqn:Hs; simpl; [|discriminate].
  intros H _; inversion H; subst; clear H.
  exists asg, policies, actions; split;
    [|unfold assemble; rewrite Hc; simpl; rewrite Hs; reflexivity].
  exists w1, w2, w3; repeat split; try assumption.
  - exists full, groups; auto.
  - rewrite <- !app_assoc; reflexivity.
Qed.

(** Conversely, such answers make the attempt return the record. *)
Lemma try_body_fetched name st asg policies actions st' v :
  fetched P name st asg policies actions st' ->
  assemble asg policies actions = Ok v ->
  try_body P name st = (Ok v, st').
Proof.
  destruct st as [w tr].
  intros (w1 & w2 & w3 & (full & groups & Hd & Hg & Hn & Ht) & Hp & Ha & ->).
  unfold try_body, bind, call, lift, ret, assemble; simpl in *.
  rewrite Hd; simpl. rewrite Hg; simpl. rewrite Hn; simpl. rewrite Ht; simpl.
  destruct (copy_attrs asg attr_key_lookup []) as [r|e]; simpl; [|discriminate].
  rewrite Hp; simpl. rewrite Ha; simpl.
  destruct (set_actions actions []) as [d|e]; simpl; [|discriminate].
  intros H; inversion H; subst. rewrite <- !app_assoc; reflexivity.
Qed.

End Attempt.

(** ** Counting events *)

Lemma sleeps_app a b : sleeps (a ++ b) = (sleeps a + sleeps b)%nat.
Proof. unfold sleeps. rewrite filter_app, length_app. reflexivity. Qed.

Lemma attempts_app a b : attempts (a ++ b) = (attempts a + attempts b)%nat.
Proof. unfold attempts. rewrite filter_app, length_app. reflexivity. Qed.

Lemma errors_logged_app a b :
  errors_logged (a ++ b) = (errors_logged a + errors_logged b)%nat.
Proof. unfold errors_logged. rewrite filter_app, length_app. reflexivity. Qed.

Lemma sleeps_cons ev tr :
  sleeps (ev :: tr) = ((if is_sleep ev then 1 else 0) + sleeps tr)%nat.
Proof. unfold sleeps; simpl. destruct (is_sleep ev); reflexivity. Qed.

Lemma attempts_cons ev tr :
  attempts (ev :: tr) = ((if is_describe ev then 1 else 0) + attempts tr)%nat.
Proof. unfold attempts; simpl. destruct (is_describe ev); reflexivity. Qed.

Lemma errors_logged_cons ev tr :
  errors_logged (ev :: tr)
  = ((if is_log_error ev then 1 else 0) + errors_logged tr)%nat.
Proof. unfold errors_logged; simpl. destruct (is_log_error ev); reflexivity. Qed.

Lemma sleeps_nil : sleeps [] = O. Proof. reflexivity. Qed.
Lemma attempts_nil : attempts [] = O. Proof. reflexivity. Qed.
Lemma errors_logged_nil : errors_logged [] = O. Proof. reflexivity. Qed.

Arguments sleeps : simpl never.
Arguments attempts : simpl never.
Arguments errors_logged : simpl never.

Create Rewrite HintDb events.
#[local] Hint Rewrite sleeps_app attempts_app errors_logged_app
  sleeps_cons attempts_cons errors_logged_cons
  sleeps_nil attempts_nil errors_logged_nil : events.

Ltac count_events :=
  unfold log_throttled in *;
  autorewrite with events in *; cbn [is_sleep is_describe is_log_error] in *;
  try lia.

Lemma sleeps_retried name n : sleeps (retried name n) = n.
Proof. induction n; simpl; count_events. Qed.

Lemma attempts_retried name n : attempts (retried name n) = n.
Proof. induction n; simpl; count_events. Qed.

Lemma errors_logged_retried name n : errors_logged (retried name n) = O.
Proof. induction n; simpl; count_events. Qed.

Lemma retried_snoc name n :
  (retried name n ++ [EvDescribe name; log_throttled; EvSleep 5])%list
  = retried name (S n).
Proof. induction n; simpl; [reflexivity|]. simpl in IHn. rewrite IHn. reflexivity. Qed.

(** ** The retry loop *)

Section Loop.

Context {W : Type} (P : provider W).

(** What one attempt adds to the trace: the describe call first, then at
    most the two other calls; it neither sleeps nor logs. *)
Lemma try_body_trace name w tr :
  exists tl,
    trace_of (try_body P name (w, tr)) = (tr ++ EvDescribe name :: tl)%list /\
    sleeps tl = O /\ attempts tl = O /\ errors_logged tl = O.
Proof.
  rewrite try_body_frame. unfold trace_of at 1. simpl.
  unfold try_body, bind, call, lift, ret, trace_of; simpl.
  destruct (describe_auto_scaling_groups P name w) as [[full|e] w1]; simpl;
    [|exists []; auto].
  destruct (getitem full "AutoScalingGroups") as [groups|e]; simpl;
    [|exists []; auto].
  destruct (next_or_none groups) as [asg|e]; simpl; [|exists []; auto].
  destruct (truthy asg); simpl; [|exists []; auto].
  destruct (copy_attrs asg attr_key_lookup []) as [r|e]; simpl;
    [|exists []; auto].
  destruct (get_all_policies P name w1) as [[policies|e] w2]; simpl;
    [|exists [EvGetAllPolicies name]; auto].
  destruct (get_all_scheduled_actions P name w2) as [[actions|e] w3]; simpl;
    [|exists [EvGetAllPolicies name; EvGetAllScheduledActions name]; auto].
  destruct (set_actions actions []) as [d|e]; simpl;
    exists [EvGetAllPolicies name; EvGetAllScheduledActions name]; auto.
Qed.

(** The three ways out of an attempt, as equations of the loop. *)
Lemma loop_returns retries name st v st' :
  try_body P name st = (Ok v, st') ->
  get_config_loop P retries name st = (Ok v, st').
Proof. intros H. destruct retries; simpl; rewrite H; reflexivity. Qed.

Lemma loop_retries retries name st st' :
  try_body P name st = (Raise (BotoServerError "Throttling"), st') ->
  get_config_loop P (S retries) name st
  = get_config_loop P retries name (sleep P 5 (emit log_throttled st')).
Proof. intros H. simpl. rewrite H. reflexivity. Qed.

Lemma loop_gives_up retries name st code st' :
  try_body P name st = (Raise (BotoServerError code), st') ->
  retries = O \/ code <> "Throttling" ->
  get_config_loop P retries name st
  = (Ok (VDict []), emit (EvLogError (BotoServerError code)) st').
Proof.
  intros H Hwhy. destruct retries; simpl; rewrite H; [reflexivity|].
  destruct Hwhy as [Hr|Hc]; [discriminate|].
  apply String.eqb_neq in Hc. rewrite Hc. reflexivity.
Qed.

Lemma loop_propagates retries name st e st' :
  try_body P name st = (Raise e, st') ->
  (forall code, e <> BotoServerError code) ->
  get_config_loop P retries name st = (Raise e, st').
Proof.
  intros H He. destruct retries; simpl; rewrite H;
    destruct e; try reflexivity; exfalso; eapply He; reflexivity.
Qed.

(** A non-empty record comes out of the attempt that ended the loop. *)
Lemma loop_record retries name st v st' :
  get_config_loop P retries name st = (Ok v, st') ->
  truthy v = true ->
  exists st1, try_body P name st1 = (Ok v, st').
Proof.
  revert st. induction retries as [|retries IH]; intros st; simpl;
    destruct (try_body P name st) as [[v0|e] st0] eqn:Hb.
  - intros H _. inversion H; subst. eauto.
  - destruct e; intros H Hv; inversion H; subst; discriminate.
  - intros H _. inversion H; subst. eauto.
  - destruct e; try (intros H Hv; inversion H; subst; discriminate).
    destruct (code =? "Throttling")%string.
    + intros H Hv. eapply IH; eassumption.
    + intros H Hv; inversion H; subst; discriminate.
Qed.

Lemma get_config_record name w v st' :
  get_config P name w = (Ok v, st') ->
  truthy v = true ->
  exists st1 asg policies actions,
    fetched P name st1 asg policies actions st' /\
    assemble asg policies actions = Ok v.
Proof.
  intros H Hv. destruct (loop_record _ _ _ _ _ H Hv) as [st1 H1].
  destruct (try_body_record P _ _ _ _ H1 Hv) as (asg & ps & acts & Hf & Ha).
  exists st1, asg, ps, acts. auto.
Qed.

(** Conversely, a first attempt that goes through gives the record at once. *)
Lemma get_config_first_try name w asg policies actions st' v :
  fetched P name (w, []) asg policies actions st' ->
  assemble asg policies actions = Ok v ->
  get_config P name w = (Ok v, st').
Proof.
  intros Hf Ha. unfold get_config. apply loop_returns.
  eapply try_body_fetched; eassumption.
Qed.

(** The describe call being throttled is the attempt being throttled. *)
Lemma try_body_throttled name w tr e w1 :
  describe_auto_scaling_groups P name w = (Raise e, w1) ->
  try_body P name (w, tr) = (Raise e, (w1, (tr ++ [EvDescribe name])%list)).
Proof.
  intros H. unfold try_body, bind, call; simpl. rewrite H. reflexivity.
Qed.

(** [n] throttled describe calls use up [n] of the retries. *)
Lemma loop_throttles name n : forall retries w w' tr,
  throttles P name n w w' ->
  (n <= retries)%nat ->
  get_config_loop P retries name (w, tr)
  = get_config_loop P (retries - n) name (w', (tr ++ retried name n)%list).
Proof.
  induction n as [|n IH]; intros retries w w' tr Ht Hle.
  - inversion Ht; subst. rewrite Nat.sub_0_r, app_nil_r. reflexivity.
  - inversion Ht as [|n0 w0 w1 w0' Hd Hrest]; subst.
    destruct retries as [|retries]; [lia|].
    rewrite (loop_retries _ _ _ _ (try_body_throttled _ _ _ _ _ Hd)).
    unfold sleep, emit; simpl fst; simpl snd.
    rewrite (IH retries _ _ _ Hrest) by lia.
    simpl. rewrite <- !app_assoc. reflexivity.
Qed.


(** No [BotoServerError] leaves the loop, wherever it was raised. *)
Lemma loop_catches name : forall retries st code,
  value_of (get_config_loop P retries name st) <> Raise (BotoServerError code).
Proof.
  induction retries as [|retries IH]; intros st code; cbn [get_config_loop];
    destruct (try_body P name st) as [[v|e] st0]; unfold value_of; cbn [fst];
    try discriminate.
  - destruct e; cbn [fst]; discriminate.
  - destruct e; cbn [fst]; try discriminate.
    destruct (code0 =? "Throttling")%string; [apply IH|cbn [fst]; discriminate].
Qed.

(** Whatever the collaborators do, a loop entered with [retries] to give
    away sleeps at most that often and describes at most once more. *)
Lemma loop_budget name : forall retries st,
  (sleeps (trace_of (get_config_loop P retries name st))
     <= sleeps (snd st) + retries)%nat /\
  (attempts (trace_of (get_config_loop P retries name st))
     <= attempts (snd st) + retries + 1)%nat.
Proof.
  induction retries as [|retries IH]; intros [w tr];
    destruct (try_body_trace name w tr) as (tl & Htl & Hs & Ha & _);
    cbn [get_config_loop];
    destruct (try_body P name (w, tr)) as [[v|e] [w0 tr0]];
    unfold trace_of in Htl; cbn [fst snd] in Htl; subst tr0.
  - unfold trace_of; cbn [fst snd]. count_events.
  - destruct e; unfold trace_of, emit; cbn [fst snd]; count_events.
  - unfold trace_of; cbn [fst snd]. count_events.
  - destruct e; unfold trace_of, emit; cbn [fst snd]; count_events.
    destruct (code =? "Throttling")%string.
    + match goal with |- context [get_config_loop P retries name ?s] =>
        destruct (IH s) as [IH1 IH2] end.
      unfold sleep, emit, trace_of in *; cbn [fst snd] in *. count_events.
    + cbn [fst snd]. count_events.
Qed.

End Loop.

Section LateFailure.

Context {W : Type} (P : provider W).

Lemma try_body_failed_late name st e st' :
  failed_late P name st e st' ->
  try_body P name st = (Raise e, st').
Proof.
  destruct st as [w tr].
  intros (asg & r & w1 & (full & groups & Hd & Hg & Hn & Ht) & Hc & Hlate).
  unfold try_body, bind, call, lift, ret; simpl in *.
  rewrite Hd; simpl. rewrite Hg; simpl. rewrite Hn; simpl. rewrite Ht; simpl.
  rewrite Hc; simpl.
  destruct Hlate as [(w2 & Hp & ->)|(policies & w2 & w3 & Hp & Ha & ->)].
  - rewrite Hp; simpl. rewrite <- app_assoc. reflexivity.
  - rewrite Hp; simpl. rewrite Ha; simpl. rewrite <- !app_assoc. reflexivity.
Qed.

Lemma throttles_last name n : forall w w',
  throttles P name (S n) w w' ->
  exists wn w1,
    throttles P name n w wn /\
    describe_auto_scaling_groups P name wn
      = (Raise (BotoServerError "Throttling"), w1) /\
    w' = time_sleep P 5 w1.
Proof.
  induction n as [|n IH]; intros w w' H;
    inversion H as [|n0 w0 w1 w0' Hd Hrest]; subst.
  - inversion Hrest; subst. exists w, w1. repeat split; [constructor|assumption].
  - destruct (IH _ _ Hrest) as (wn & w2 & Hn & Hd2 & ->).
    exists wn, w2. repeat split; [|assumption].
    econstructor; eassumption.
Qed.

End LateFailure.

(** ** The claims about retrying and failing *)

(** C6: when the describe operation returns zero matching groups,
    [get_config] returns the empty record after that single call: it does not
    sleep, does not retry, and logs no error. *)
Theorem no_group_no_retry {W : Type} (P : provider W) (name : string) (w w1 : W)
    (full groups : pyval) :
  describe_auto_scaling_groups P name w = (Ok full, w1) ->
  getitem full "AutoScalingGroups" = Ok groups ->
  py_iter groups = Ok [] ->
  get_config P name w = (Ok (VDict []), (w1, [EvDescribe name])) /\
  sleeps (trace_of (get_config P name w)) = O /\
  attempts (trace_of (get_config P name w)) = 1%nat /\
  errors_logged (trace_of (get_config P name w)) = O.
Proof.
  intros Hd Hg Hi.
  assert (H : get_config P name w = (Ok (VDict []), (w1, [EvDescribe name]))).
  { unfold get_config. apply loop_returns.
    unfold try_body, bind, call, lift, ret, next_or_none; simpl.
    rewrite Hd; simpl. rewrite Hg; simpl. rewrite Hi; simpl. reflexivity. }
  rewrite H. repeat split.
Qed.

Lemma no_group_no_retry_witness :
  get_config scripted "web-asg" no_such_group
    = (Ok (VDict []), (no_such_group, [EvDescribe "web-asg"])) /\
  sleeps (trace_of (get_config scripted "web-asg" no_such_group)) = O /\
  attempts (trace_of (get_config scripted "web-asg" no_such_group)) = 1%nat /\
  errors_logged (trace_of (get_config scripted "web-asg" no_such_group)) = O.
Proof.
  apply (no_group_no_retry scripted "web-asg" no_such_group no_such_group
           (VDict [("AutoScalingGroups", VList [])]) (VList []));
    reflexivity.
Defined.

(** The handler on a describe call that raises [BotoServerError] with code
    [Throttling] for ever: [get_config] asks 31 times before it returns the
    empty record. *)
Lemma always_throttled_31_attempts :
  value_of (get_config scripted "web-asg" always_throttled) = Ok (VDict []) /\
  attempts (trace_of (get_config scripted "web-asg" always_throttled)) = 31%nat /\
  attempts (trace_of (get_config scripted "web-asg" always_throttled)) <> 30%nat.
Proof. repeat split. vm_compute. discriminate. Qed.

(** The handler on a describe call that raises [BotoServerError] with code
    [Throttling]: after [n] such errors, [n] at most 30, and an attempt that
    returns [v], [get_config] returns [v] and has slept exactly [n] times;
    after 31 such errors in a row it has made exactly 31 attempts and slept
    30 times, and returns the empty record.  (This is about the error class
    the handler names; see [boto3_throttling_is_not_retried] for the
    describe call as the boto3 client makes it.) *)
Theorem throttle_retry {W : Type} (P : provider W) (name : string) (w w' : W)
    (n : nat) :
  throttles P name n w w' ->
  ((n <= 30)%nat ->
   forall v st',
     try_body P name (w', []) = (Ok v, st') ->
     value_of (get_config P name w) = Ok v /\
     sleeps (trace_of (get_config P name w)) = n /\
     attempts (trace_of (get_config P name w)) = S n) /\
  (n = 31%nat ->
   value_of (get_config P name w) = Ok (VDict []) /\
   attempts (trace_of (get_config P name w)) = 31%nat /\
   sleeps (trace_of (get_config P name w)) = 30%nat /\
   errors_logged (trace_of (get_config P name w)) = 1%nat).
Proof.
  intros Ht. split.
  - intros Hn v st' Hv. unfold get_config.
    rewrite (loop_throttles P name n 30%nat w w' [] Ht Hn).
    destruct (try_body_trace P name w' []) as (tl & Htl & Hs & Ha & He).
    rewrite Hv in Htl. unfold trace_of in Htl; cbn [fst snd app] in Htl.
    erewrite loop_returns by (rewrite try_body_frame, Hv; reflexivity).
    unfold value_of, trace_of; cbn [fst snd app]. rewrite Htl.
    split; [reflexivity|].
    count_events; rewrite ?sleeps_retried, ?attempts_retried; lia.
  - intros ->. destruct (throttles_last P name _ _ _ Ht) as (wn & w1 & Hn & Hd & _).
    unfold get_config.
    rewrite (loop_throttles P name 30%nat 30%nat w wn [] Hn) by lia.
    rewrite Nat.sub_diag.
    erewrite loop_gives_up
      by (first [apply try_body_throttled; eassumption | left; reflexivity]).
    unfold value_of, trace_of, emit; cbn [fst snd app].
    split; [reflexivity|].
    count_events;
      rewrite ?sleeps_retried, ?attempts_retried, ?errors_logged_retried;
      repeat split; lia.
Qed.

Lemma always_throttled_throttles (n : nat) :
  throttles scripted "web-asg" n always_throttled always_throttled.
Proof.
  induction n as [|n IH].
  - apply throttles_O.
  - apply (throttles_S scripted "web-asg" n always_throttled always_throttled);
      [reflexivity | exact IH].
Defined.

Lemma throttle_retry_witness :
  (value_of (get_config scripted "web-asg" throttled_thrice) = Ok web_record /\
   sleeps (trace_of (get_config scripted "web-asg" throttled_thrice)) = 3%nat /\
   attempts (trace_of (get_config scripted "web-asg" throttled_thrice)) = 4%nat)
  /\
  (value_of (get_config scripted "web-asg" always_throttled) = Ok (VDict []) /\
   attempts (trace_of (get_config scripted "web-asg" always_throttled)) = 31%nat /\
   sleeps (trace_of (get_config scripted "web-asg" always_throttled)) = 30%nat /\
   errors_logged (trace_of (get_config scripted "web-asg" always_throttled)) = 1%nat).
Proof.
  split.
  - refine (proj1 (throttle_retry scripted "web-asg" throttled_thrice
                     (calm web_asg [nightly_scale]) 3 _) _ web_record
                  (calm web_asg [nightly_scale], web_trace) _).
    + repeat (eapply throttles_S; [reflexivity|]). apply throttles_O.
    + lia.
    + reflexivity.
  - refine (proj2 (throttle_retry scripted "web-asg" always_throttled
                     always_throttled 31 _) _).
    + apply always_throttled_throttles.
    + reflexivity.
Defined.

(** A collaborator whose describe call never raises a [BotoServerError], as
    the boto3 client, is never throttled in the handler's sense. *)
Lemma throttles_needs_boto_error {W : Type} (P : provider W) (name : string)
    (n : nat) (w w' : W) :
  (forall w0 e w1,
      describe_auto_scaling_groups P name w0 = (Raise e, w1) ->
      is_boto_server_error e = false) ->
  throttles P name n w w' ->
  n = O.
Proof.
  intros Hnever Ht. destruct Ht as [w|n w w1 w' Hd _]; [reflexivity|].
  apply Hnever in Hd. discriminate.
Qed.

(** C4: the code does not do this.  The describe call is made through the
    boto3 client, which reports throttling with botocore's [ClientError];
    the [except] clause names only boto's [BotoServerError].  So when the
    first describe call is throttled and the next would find the group,
    [get_config] neither sleeps nor asks again: the exception reaches the
    caller after that one call, although a second attempt would have
    returned the record. *)
Theorem boto3_throttling_is_not_retried :
  value_of (get_config scripted "web-asg" throttled_once_by_boto3)
    = Raise boto3_throttling /\
  sleeps (trace_of (get_config scripted "web-asg" throttled_once_by_boto3))
    = O /\
  attempts (trace_of (get_config scripted "web-asg" throttled_once_by_boto3))
    = 1%nat /\
  value_of (get_config scripted "web-asg"
              (fst (snd (get_config scripted "web-asg" throttled_once_by_boto3))))
    = Ok web_record.
Proof. repeat split; vm_compute; reflexivity. Qed.



(** C3, as stated, fails: a provider error raised by the policy fetch does not
    reach the caller.  A throttling error makes the loop sleep and start
    again, after which the record is returned; any other provider error is
    turned into the empty record. *)
Lemma policy_error_is_caught :
  value_of (get_config scripted "web-asg" (policies_failing_once "Throttling"))
    = Ok web_record /\
  sleeps (trace_of (get_config scripted "web-asg"
                      (policies_failing_once "Throttling"))) = 1%nat /\
  attempts (trace_of (get_config scripted "web-asg"
                        (policies_failing_once "Throttling"))) = 2%nat /\
  value_of (get_config scripted "web-asg"
              (policies_failing_once "ServiceUnavailable"))
    = Ok (VDict []) /\
  (forall e,
      value_of (get_config scripted "web-asg"
                  (policies_failing_once "ServiceUnavailable")) <> Raise e).
Proof.
  repeat split; try (vm_compute; reflexivity).
  intros e. vm_compute. discriminate.
Qed.

(** C3, amended: an exception raised by the policy fetch or the action fetch
    is handled by the same [except] clause as one raised by the describe call.
    A [BotoServerError] never reaches the caller: with code [Throttling] and a
    retry left the loop sleeps and starts again; with another code, or with no
    retry left, the error is logged and the empty record returned.  An
    exception of any other class is not caught and reaches the caller. *)
Theorem late_failure_handling {W : Type} (P : provider W) (name : string)
    (st st' : state) (e : exn) (retries : nat) :
  failed_late P name st e st' ->
  match e with
  | BotoServerError code =>
      (forall code', value_of (get_config_loop P retries name st)
                     <> Raise (BotoServerError code')) /\
      if (code =? "Throttling")%string then
        match retries with
        | S retries' =>
            get_config_loop P retries name st
            = get_config_loop P retries' name
                (sleep P 5 (emit log_throttled st'))
        | O =>
            get_config_loop P retries name st
            = (Ok (VDict []), emit (EvLogError e) st')
        end
      else
        get_config_loop P retries name st
        = (Ok (VDict []), emit (EvLogError e) st')
  | _ => get_config_loop P retries name st = (Raise e, st')
  end.
Proof.
  intros Hlate. pose proof (try_body_failed_late P _ _ _ _ Hlate) as Hbody.
  destruct e;
    try (apply loop_propagates; [assumption|intros c; discriminate]).
  split; [intros code'; apply loop_catches|].
  destruct (code =? "Throttling")%string eqn:Hcode.
  - apply String.eqb_eq in Hcode; subst code.
    destruct retries as [|retries'].
    + apply loop_gives_up; [assumption|left; reflexivity].
    + apply loop_retries; assumption.
  - apply String.eqb_neq in Hcode.
    apply loop_gives_up; [assumption|right; assumption].
Qed.

Lemma late_failure_handling_witness :
  (forall code',
      value_of (get_config_loop scripted 30 "web-asg"
                  (policies_failing_once "ServiceUnavailable", []))
      <> Raise (BotoServerError code')) /\
  get_config_loop scripted 30 "web-asg"
    (policies_failing_once "ServiceUnavailable", [])
  = (Ok (VDict []),
     emit (EvLogError (BotoServerError "ServiceUnavailable"))
       (calm web_asg [nightly_scale],
        [EvDescribe "web-asg"; EvGetAllPolicies "web-asg"])).
Proof.
  apply (late_failure_handling scripted "web-asg"
           (policies_failing_once "ServiceUnavailable", [])
           (calm web_asg [nightly_scale],
            [EvDescribe "web-asg"; EvGetAllPolicies "web-asg"])
           (BotoServerError "ServiceUnavailable") 30).
  exists web_asg.
  eexists.
  exists (policies_failing_once "ServiceUnavailable").
  split; [|split].
  - exists (VDict [("AutoScalingGroups", VList [web_asg])]), (VList [web_asg]).
    repeat split; reflexivity.
  - vm_compute. reflexivity.
  - left. exists (calm web_asg [nightly_scale]). split; reflexivity.
Defined.

(** ** The record of one group *)

(** Step 3 written out: the fourteen entries of the rename table, in its
    order, each with the value it is given. *)
Lemma copy_attrs_inv (asg : pyval) (r : odict) :
  copy_attrs asg attr_key_lookup [] = Ok r ->
  exists v_name v_az v_cooldown v_desired v_period v_type v_lc v_lb v_max v_min
         raw_vpc v_vpc raw_tags tags v_tags v_tp raw_sp procs names v_sp,
    getitem asg "AutoScalingGroupName" = Ok v_name /\
    getitem asg "AvailabilityZones" = Ok v_az /\
    getitem asg "DefaultCooldown" = Ok v_cooldown /\
    getitem asg "DesiredCapacity" = Ok v_desired /\
    getitem asg "HealthCheckGracePeriod" = Ok v_period /\
    getitem asg "HealthCheckType" = Ok v_type /\
    getitem asg "LaunchConfigurationName" = Ok v_lc /\
    getitem asg "LoadBalancerNames" = Ok v_lb /\
    getitem asg "MaxSize" = Ok v_max /\
    getitem asg "MinSize" = Ok v_min /\
    (getitem asg "VPCZoneIdentifier" = Ok raw_vpc /\
     py_split_comma raw_vpc = Ok v_vpc) /\
    (getitem asg "Tags" = Ok raw_tags /\
     py_iter raw_tags = Ok tags /\
     rmap tag_record tags = Ok v_tags) /\
    getitem asg "TerminationPolicies" = Ok v_tp /\
    (getitem asg "SuspendedProcesses" = Ok raw_sp /\
     py_iter raw_sp = Ok procs /\
     rmap process_name procs = Ok names /\
     sorted names = Ok v_sp) /\
    r = [ ("name", v_name);
          ("availability_zones", v_az);
          ("default_cooldown", v_cooldown);
          ("desired_capacity", v_desired);
          ("health_check_period", v_period);
          ("health_check_type", v_type);
          ("launch_config_name", v_lc);
          ("load_balancers", v_lb);
          ("max_size", v_max);
          ("min_size", v_min);
          ("vpc_zone_identifier", v_vpc);
          ("tags", VList v_tags);
          ("termination_policies", v_tp);
          ("suspended_processes", VList v_sp) ].
Proof.
  unfold copy_attrs, attr_key_lookup, set_attr.
  cbn [String.eqb Ascii.eqb Bool.eqb].
  repeat match goal with
         | |- context [rbind ?x _] =>
             lazymatch x with
             | rbind _ _ => fail
             | _ => destruct x eqn:?; cbn [rbind od_set String.eqb Ascii.eqb Bool.eqb];
                    [|discriminate]
             end
         end.
  intros H; inversion H; subst; clear H.
  do 20 eexists. repeat split; eassumption.
Qed.

(** *** Dictionaries *)

Lemma od_get_set_same k v d : od_get k (od_set k v d) = Some v.
Proof.
  induction d as [|[k' v'] d IH]; simpl.
  - rewrite String.eqb_refl. reflexivity.
  - destruct (k' =? k)%string eqn:E; simpl; rewrite E; [reflexivity|exact IH].
Qed.

Lemma od_get_set_other k k' v d :
  k <> k' -> od_get k (od_set k' v d) = od_get k d.
Proof.
  intros Hne. induction d as [|[k0 v0] d IH]; simpl.
  - destruct (k' =? k)%string eqn:E; [|reflexivity].
    apply String.eqb_eq in E. congruence.
  - destruct (k0 =? k')%string eqn:E; simpl.
    + apply String.eqb_eq in E; subst k0.
      destruct (k' =? k)%string eqn:E'; [|reflexivity].
      apply String.eqb_eq in E'. congruence.
    + destruct (k0 =? k)%string; [reflexivity|exact IH].
Qed.

(** *** [split] *)

Lemma split_on_not_nil sep s : split_on sep s <> [].
Proof.
  destruct s as [|c s]; simpl; [discriminate|].
  destruct (Ascii.eqb c sep); [discriminate|].
  destruct (split_on sep s); discriminate.
Qed.

Lemma split_on_comma_free s : comma_free s = true -> split_on "," s = [s].
Proof.
  induction s as [|c s IH]; simpl; [reflexivity|].
  intros H. apply andb_true_iff in H. destruct H as [Hc Hs].
  apply negb_true_iff in Hc. rewrite Hc, (IH Hs). reflexivity.
Qed.

Lemma split_on_append s t :
  comma_free s = true ->
  split_on "," (s ++ String "," t) = s :: split_on "," t.
Proof.
  induction s as [|c s IH]; simpl; [reflexivity|].
  intros H. apply andb_true_iff in H. destruct H as [Hc Hs].
  apply negb_true_iff in Hc. rewrite Hc, (IH Hs). reflexivity.
Qed.

(** Splitting undoes joining: the pieces of [",".join(l)] are [l] again, for
    a list that is not empty and whose items hold no comma. *)
Lemma split_on_concat l :
  l <> [] ->
  forallb comma_free l = true ->
  split_on "," (String.concat "," l) = l.
Proof.
  induction l as [|s l IH]; [congruence|].
  intros _ H. simpl in H. apply andb_true_iff in H. destruct H as [Hs Hl].
  destruct l as [|t l].
  - simpl. apply split_on_comma_free. exact Hs.
  - change (String.concat "," (s :: t :: l))
      with (s ++ String "," (String.concat "," (t :: l))).
    rewrite split_on_append by exact Hs.
    rewrite IH; [reflexivity|discriminate|exact Hl].
Qed.

(** *** [sorted] on strings *)









(** *** [isoformat] *)

Lemma is_digit_digit z : is_digit (digit z) = true.
Proof.
  unfold digit. pose proof (Z.mod_pos_bound z 10 ltac:(lia)) as H.
  assert (E : z mod 10 = 0 \/ z mod 10 = 1 \/ z mod 10 = 2 \/ z mod 10 = 3 \/
              z mod 10 = 4 \/ z mod 10 = 5 \/ z mod 10 = 6 \/ z mod 10 = 7 \/
              z mod 10 = 8 \/ z mod 10 = 9) by lia.
  repeat (destruct E as [E|E]; [rewrite E; reflexivity|]).
  rewrite E; reflexivity.
Qed.

Lemma eat_pad2 z rest pattern :
  eat (is_digit :: is_digit :: pattern) (pad2 z rest) = eat pattern rest.
Proof. unfold pad2. cbn [eat]. rewrite !is_digit_digit. reflexivity. Qed.

Lemma eat_char c rest pattern :
  eat (is_char c :: pattern) (String c rest) = eat pattern rest.
Proof. cbn [eat]. unfold is_char. rewrite Ascii.eqb_refl. reflexivity. Qed.

Lemma eat_sign (neg : bool) rest pattern :
  eat (is_sign :: pattern) (String (if neg then "-"%char else "+"%char) rest)
  = eat pattern rest.
Proof. destruct neg; reflexivity. Qed.

Lemma eat_nil s : eat [] s = Some s.
Proof. destruct s; reflexivity. Qed.

Lemma no_fraction (neg : bool) rest :
  optional iso_fraction (String (if neg then "-"%char else "+"%char) rest)
  = String (if neg then "-"%char else "+"%char) rest.
Proof. destruct neg; reflexivity. Qed.

Ltac eat_all :=
  repeat (rewrite eat_pad2 || rewrite eat_char || rewrite eat_sign
          || rewrite eat_nil).

Lemma is_iso8601_offset (off : option Z) :
  match eat iso_zone (iso_offset off) with
  | Some s3 => (optional iso_zone_seconds s3 =? "")%string
  | None => (iso_offset off =? "")%string
  end = true.
Proof.
  destruct off as [o|]; [|reflexivity].
  unfold iso_offset, iso_zone, dd. cbn [app]. eat_all.
  destruct (Z.abs o mod 60 =? 0); [reflexivity|].
  unfold optional, iso_zone_seconds, dd. cbn [app]. eat_all. reflexivity.
Qed.

Lemma with_fraction z rest :
  optional iso_fraction (String "." (pad6 z "") ++ rest) = rest.
Proof.
  unfold optional, iso_fraction, dd, pad6, pad4, pad2.
  cbn [app String.append]. fold (pad2 z rest). fold (pad2 (z / 100) (pad2 z rest)).
  fold (pad2 (z / 10000) (pad2 (z / 100) (pad2 z rest))).
  eat_all. reflexivity.
Qed.

Lemma is_iso8601_isoformat d : is_iso8601 (isoformat d) = true.
Proof.
  unfold is_iso8601, isoformat, iso_date_time, dd, pad4. cbn [app]. eat_all.
  destruct (dt_microsecond d =? 0).
  - cbn [String.append].
    assert (Hfrac : optional iso_fraction (iso_offset (dt_utcoffset d))
                    = iso_offset (dt_utcoffset d)).
    { destruct (dt_utcoffset d) as [o|]; [|reflexivity].
      unfold iso_offset. apply no_fraction. }
    rewrite Hfrac. apply is_iso8601_offset.
  - rewrite with_fraction. apply is_iso8601_offset.
Qed.

(** *** Scheduled actions *)

Lemma find_app {A : Type} (f : A -> bool) (l1 l2 : list A) :
  find f (l1 ++ l2)
  = match find f l1 with Some a => Some a | None => find f l2 end.
Proof.
  induction l1 as [|a l1 IH]; simpl; [reflexivity|].
  destruct (f a); [reflexivity|exact IH].
Qed.

Lemma last_named_cons k a actions :
  last_named k (a :: actions)
  = match last_named k actions with
    | Some a' => Some a'
    | None => if (action_name a =? k)%string then Some a else None
    end.
Proof. unfold last_named. simpl. rewrite find_app. reflexivity. Qed.

Lemma last_named_some k a actions :
  last_named k actions = Some a -> In a actions /\ action_name a = k.
Proof.
  unfold last_named. intros H. apply find_some in H. destruct H as [Hin Hk].
  split; [apply in_rev; exact Hin|apply String.eqb_eq; exact Hk].
Qed.


(** The loop over the actions: under every name stands the entry made from
    the last action of that name, and every action made an entry. *)
Lemma set_actions_spec actions : forall d r,
  set_actions actions d = Ok r ->
  forall k,
    match last_named k actions with
    | Some a => exists entry, action_dict a = Ok entry /\ od_get k r = Some entry
    | None => od_get k r = od_get k d
    end.
Proof.
  induction actions as [|a actions IH]; intros d r H k.
  - simpl in H. inversion H; subst. reflexivity.
  - simpl in H. destruct (action_dict a) as [entry|e] eqn:Ha; simpl in H;
      [|discriminate].
    specialize (IH _ _ H k). rewrite last_named_cons.
    destruct (last_named k actions) as [a'|]; [exact IH|].
    destruct (action_name a =? k)%string eqn:E.
    + apply String.eqb_eq in E; subst k.
      exists entry. split; [exact Ha|]. rewrite IH. apply od_get_set_same.
    + rewrite IH. apply od_get_set_other. apply String.eqb_neq in E. congruence.
Qed.

Lemma py_int_is_int v r : py_int v = Ok r -> exists z, r = VInt z.
Proof.
  destruct v as [|b|z|f|s|d|l|d]; simpl; try discriminate.
  - intros H; inversion H; eauto.
  - intros H; inversion H; eauto.
  - destruct (int_of_float f); simpl; [|discriminate].
    intros H; inversion H; eauto.
  - destruct (int_of_string s); [|discriminate]. intros H; inversion H; eauto.
Qed.

Lemma py_isoformat_inv v r :
  py_isoformat v = Ok r -> exists d, v = VDatetime d /\ r = VStr (isoformat d).
Proof.
  destruct v; simpl; try discriminate. intros H; inversion H; eauto.
Qed.

(** One entry, written out. *)
Lemma action_dict_inv a entry :
  action_dict a = Ok entry ->
  exists v_end z start,
    (if truthy (action_end_time a)
     then exists d, action_end_time a = VDatetime d /\ v_end = VStr (isoformat d)
     else v_end = VNone) /\
    py_int (action_desired_capacity a) = Ok (VInt z) /\
    action_start_time a = VDatetime start /\
    entry = VDict [ ("min_size", action_min_size a);
                    ("max_size", action_max_size a);
                    ("desired_capacity", VInt z);
                    ("start_time", VStr (isoformat start));
                    ("end_time", v_end);
                    ("recurrence", action_recurrence a) ].
Proof.
  unfold action_dict.
  destruct (if truthy (action_end_time a)
            then py_isoformat (action_end_time a) else Ok VNone)
    as [v_end|e] eqn:He; simpl; [|discriminate].
  destruct (py_int (action_desired_capacity a)) as [desired|e] eqn:Hi; simpl;
    [|discriminate].
  destruct (py_isoformat (action_start_time a)) as [start|e] eqn:Hs; simpl;
    [|discriminate].
  intros H; inversion H; subst; clear H.
  destruct (py_int_is_int _ _ Hi) as [z ->].
  destruct (py_isoformat_inv _ _ Hs) as (d & Hd & ->).
  exists v_end, z, d. repeat split; try assumption.
  destruct (truthy (action_end_time a)).
  - destruct (py_isoformat_inv _ _ He) as (d' & Hd' & ->). eauto.
  - inversion He; reflexivity.
Qed.

Lemma assemble_inv asg policies actions v :
  assemble asg policies actions = Ok v ->
  exists r scheduled,
    copy_attrs asg attr_key_lookup [] = Ok r /\
    set_actions actions [] = Ok scheduled /\
    v = VDict (od_set "scheduled_actions" (VDict scheduled)
                 (od_set "scaling_policies" (VList (map policy_dict policies)) r)).
Proof.
  unfold assemble.
  destruct (copy_attrs asg attr_key_lookup []) as [r|e]; simpl; [|discriminate].
  destruct (set_actions actions []) as [scheduled|e]; simpl; [|discriminate].
  intros H; inversion H; subst. eauto.
Qed.

(** Takes a returned record apart: the last attempt's answers, the entries of
    step 3 and the mapping of step 5. *)
Ltac open_record H Hv :=
  let st1 := fresh "st1" in
  let asg := fresh "asg" in
  let policies := fresh "policies" in
  let actions := fresh "actions" in
  let Hf := fresh "Hfetched" in
  let Ha := fresh "Hassemble" in
  let r := fresh "r" in
  let scheduled := fresh "scheduled" in
  let Hr := fresh "Hattrs" in
  let Hs := fresh "Hactions" in
  destruct (get_config_record _ _ _ _ _ H Hv)
    as (st1 & asg & policies & actions & Hf & Ha);
  destruct (assemble_inv _ _ _ _ Ha) as (r & scheduled & Hr & Hs & ->);
  destruct (copy_attrs_inv _ _ Hr)
    as (v_name & v_az & v_cooldown & v_desired & v_period & v_type & v_lc
        & v_lb & v_max & v_min & raw_vpc & v_vpc & raw_tags & tags & v_tags
        & v_tp & raw_sp & procs & names & v_sp
        & H_name & H_az & H_cooldown & H_desired & H_period & H_type & H_lc
        & H_lb & H_max & H_min & (H_vpc & H_split) & (H_tags & H_tagit & H_tagrec)
        & H_tp & (H_sp & H_procs & H_names & H_sorted) & ->).

(** ** The claims about the returned record *)

(** C5: every non-empty record that [get_config] returns has the sixteen keys
    [name], [availability_zones], ..., [scaling_policies],
    [scheduled_actions], in exactly that order. *)
Theorem key_order {W : Type} (P : provider W) (name : string) (w : W)
    (v : pyval) (st' : state) :
  get_config P name w = (Ok v, st') ->
  truthy v = true ->
  exists entries, v = VDict entries /\ map fst entries = the_keys.
Proof.
  intros H Hv. open_record H Hv.
  eexists. split; reflexivity.
Qed.

Lemma key_order_witness :
  exists entries, web_record = VDict entries /\ map fst entries = the_keys.
Proof.
  apply (key_order scripted "web-asg" (calm web_asg [nightly_scale]) web_record
           (calm web_asg [nightly_scale], web_trace));
    reflexivity.
Defined.

(** C1, as stated, fails on a native list: a list has no [split], so the call
    raises [AttributeError] and no record is returned. *)
Lemma native_list_raises :
  value_of (get_config scripted "web-asg"
              (calm (web_asg_with (VList [VStr "subnet-a"; VStr "subnet-b"]))
                    [nightly_scale]))
  = Raise (AttributeError "split").
Proof. reflexivity. Qed.

(** C1, amended: whenever a record is returned, the provider's value of the
    VPC zone identifier field was a string, and the [vpc_zone_identifier]
    entry is the list of the pieces of that string between its commas; for
    the comma-joined form of a non-empty list of comma-free strings these
    are the same elements in the same order. *)
Theorem vpc_zone_identifier_split {W : Type} (P : provider W) (name : string)
    (w : W) (v : pyval) (st' : state) :
  get_config P name w = (Ok v, st') ->
  truthy v = true ->
  exists st1 asg policies actions s,
    fetched P name st1 asg policies actions st' /\
    getitem asg "VPCZoneIdentifier" = Ok (VStr s) /\
    getitem v "vpc_zone_identifier" = Ok (VList (map VStr (split_on "," s))) /\
    (forall l,
        l <> [] -> forallb comma_free l = true -> s = String.concat "," l ->
        getitem v "vpc_zone_identifier" = Ok (VList (map VStr l))).
Proof.
  intros H Hv. open_record H Hv.
  destruct raw_vpc as [|b|z|f|s|d|l|d]; simpl in H_split; try discriminate.
  inversion H_split; subst v_vpc; clear H_split.
  exists st1, asg, policies, actions, s.
  split; [assumption|]. split; [assumption|]. split; [reflexivity|].
  intros l Hl Hfree ->. rewrite split_on_concat by assumption. reflexivity.
Qed.

Lemma vpc_zone_identifier_split_witness :
  exists st1 asg policies actions s,
    fetched scripted "web-asg" st1 asg policies actions
            (calm web_asg [nightly_scale], web_trace) /\
    getitem asg "VPCZoneIdentifier" = Ok (VStr s) /\
    getitem web_record "vpc_zone_identifier"
      = Ok (VList (map VStr (split_on "," s))) /\
    (forall l,
        l <> [] -> forallb comma_free l = true -> s = String.concat "," l ->
        getitem web_record "vpc_zone_identifier" = Ok (VList (map VStr l))).
Proof.
  apply (vpc_zone_identifier_split scripted "web-asg"
           (calm web_asg [nightly_scale]) web_record
           (calm web_asg [nightly_scale], web_trace));
    reflexivity.
Defined.

(** C10: whenever a record is returned, its [vpc_zone_identifier] entry is a
    list that is never empty, and when the provider's value is the empty
    string it is the one-element list holding the empty string. *)
Theorem empty_vpc_zone_identifier {W : Type} (P : provider W) (name : string)
    (w : W) (v : pyval) (st' : state) :
  get_config P name w = (Ok v, st') ->
  truthy v = true ->
  exists st1 asg policies actions s pieces,
    fetched P name st1 asg policies actions st' /\
    getitem asg "VPCZoneIdentifier" = Ok (VStr s) /\
    getitem v "vpc_zone_identifier" = Ok (VList (map VStr pieces)) /\
    pieces <> [] /\
    (s = "" -> pieces = [""]).
Proof.
  intros H Hv. open_record H Hv.
  destruct raw_vpc as [|b|z|f|s|d|l|d]; simpl in H_split; try discriminate.
  inversion H_split; subst v_vpc; clear H_split.
  exists st1, asg, policies, actions, s, (split_on "," s).
  split; [assumption|]. split; [assumption|]. split; [reflexivity|].
  split; [apply split_on_not_nil|]. intros ->. reflexivity.
Qed.

Lemma empty_vpc_zone_identifier_witness :
  exists st1 asg policies actions s pieces,
    fetched scripted "web-asg" st1 asg policies actions
            (calm (web_asg_with (VStr "")) [nightly_scale], web_trace) /\
    getitem asg "VPCZoneIdentifier" = Ok (VStr s) /\
    getitem (web_record_with "vpc_zone_identifier" (VList [VStr ""])) "vpc_zone_identifier"
      = Ok (VList (map VStr pieces)) /\
    pieces <> [] /\
    (s = "" -> pieces = [""]).
Proof.
  apply (empty_vpc_zone_identifier scripted "web-asg"
           (calm (web_asg_with (VStr "")) [nightly_scale])
           (web_record_with "vpc_zone_identifier" (VList [VStr ""]))
           (calm (web_asg_with (VStr "")) [nightly_scale], web_trace));
    reflexivity.
Defined.

Example empty_string_is_one_piece :
  value_of (get_config scripted "web-asg"
              (calm (web_asg_with (VStr "")) [nightly_scale]))
  = Ok (web_record_with "vpc_zone_identifier" (VList [VStr ""])).
Proof. reflexivity. Qed.






(** C8: whenever a record is returned, its [scheduled_actions] entry is a
    mapping with exactly the names of the provider's actions as keys; under a
    name stands the entry of the last action of that name.  In an entry,
    [start_time] is the ISO-8601 text of the action's start time, and
    [end_time] is the ISO-8601 text of its end time when it has one and
    [None] otherwise. *)
Theorem scheduled_actions_by_name {W : Type} (P : provider W) (name : string)
    (w : W) (v : pyval) (st' : state) :
  get_config P name w = (Ok v, st') ->
  truthy v = true ->
  exists st1 asg policies actions scheduled,
    fetched P name st1 asg policies actions st' /\
    getitem v "scheduled_actions" = Ok (VDict scheduled) /\
    forall k,
      match last_named k actions with
      | None => od_get k scheduled = None
      | Some a =>
          exists entry start,
            od_get k scheduled = Some entry /\
            action_dict a = Ok entry /\
            action_start_time a = VDatetime start /\
            getitem entry "start_time" = Ok (VStr (isoformat start)) /\
            is_iso8601 (isoformat start) = true /\
            (if truthy (action_end_time a)
             then exists d,
                 action_end_time a = VDatetime d /\
                 getitem entry "end_time" = Ok (VStr (isoformat d)) /\
                 is_iso8601 (isoformat d) = true
             else getitem entry "end_time" = Ok VNone)
      end.
Proof.
  intros H Hv. open_record H Hv.
  exists st1, asg, policies, actions, scheduled.
  split; [assumption|]. split; [reflexivity|].
  intros k. pose proof (set_actions_spec _ _ _ Hactions k) as Hspec.
  destruct (last_named k actions) as [a|]; [|exact Hspec].
  destruct Hspec as (entry & Hdict & Hget).
  destruct (action_dict_inv _ _ Hdict) as (v_end & z & start & Hend & _ & Hstart & ->).
  eexists. exists start.
  split; [exact Hget|]. split; [exact Hdict|]. split; [exact Hstart|].
  split; [reflexivity|]. split; [apply is_iso8601_isoformat|].
  destruct (truthy (action_end_time a)).
  - destruct Hend as (d & Hd & ->). exists d.
    split; [exact Hd|]. split; [reflexivity|apply is_iso8601_isoformat].
  - subst v_end. reflexivity.
Qed.

Lemma scheduled_actions_by_name_witness :
  exists st1 asg policies actions scheduled,
    fetched scripted "web-asg" st1 asg policies actions
            (calm web_asg [nightly_scale; nightly_scale_again], web_trace) /\
    getitem (web_record_with "scheduled_actions"
               (VDict [("nightly-scale", nightly_scale_again_entry)]))
            "scheduled_actions"
      = Ok (VDict scheduled) /\
    forall k,
      match last_named k actions with
      | None => od_get k scheduled = None
      | Some a =>
          exists entry start,
            od_get k scheduled = Some entry /\
            action_dict a = Ok entry /\
            action_start_time a = VDatetime start /\
            getitem entry "start_time" = Ok (VStr (isoformat start)) /\
            is_iso8601 (isoformat start) = true /\
            (if truthy (action_end_time a)
             then exists d,
                 action_end_time a = VDatetime d /\
                 getitem entry "end_time" = Ok (VStr (isoformat d)) /\
                 is_iso8601 (isoformat d) = true
             else getitem entry "end_time" = Ok VNone)
      end.
Proof.
  apply (scheduled_actions_by_name scripted "web-asg"
           (calm web_asg [nightly_scale; nightly_scale_again])
           (web_record_with "scheduled_actions"
              (VDict [("nightly-scale", nightly_scale_again_entry)]))
           (calm web_asg [nightly_scale; nightly_scale_again], web_trace));
    vm_compute; reflexivity.
Defined.

Example last_action_wins :
  value_of (get_config scripted "web-asg"
              (calm web_asg [nightly_scale; nightly_scale_again]))
  = Ok (web_record_with "scheduled_actions"
          (VDict [("nightly-scale", nightly_scale_again_entry)])).
Proof. vm_compute. reflexivity. Qed.

(** * Further properties of [get_config] *)

(** ** A rule for reasoning about the retry loop *)

Section LoopRule.

Context {W : Type} (P : provider W) (name : string).

(** What holds of a run however the loop ends: it is enough to look at the
    four ways an attempt can end. *)
Lemma loop_rule (Inv : state -> result pyval * state -> Prop) :
  (forall st v st',
      try_body P name st = (Ok v, st') -> Inv st (Ok v, st')) ->
  (forall st e st',
      try_body P name st = (Raise e, st') ->
      (forall code, e <> BotoServerError code) ->
      Inv st (Raise e, st')) ->
  (forall st code st',
      try_body P name st = (Raise (BotoServerError code), st') ->
      Inv st (Ok (VDict []), emit (EvLogError (BotoServerError code)) st')) ->
  (forall st st' run,
      try_body P name st = (Raise (BotoServerError "Throttling"), st') ->
      Inv (sleep P 5 (emit log_throttled st')) run ->
      Inv st run) ->
  forall retries st, Inv st (get_config_loop P retries name st).
Proof.
  intros Hok Hraise Hgive Hretry.
  induction retries as [|retries IH]; intros st; cbn [get_config_loop];
    destruct (try_body P name st) as [[v|e] st0] eqn:Hb.
  - apply Hok; assumption.
  - destruct e; try (apply Hraise; [assumption|intros c; discriminate]).
    apply Hgive; assumption.
  - apply Hok; assumption.
  - destruct e; try (apply Hraise; [assumption|intros c; discriminate]).
    destruct (code =? "Throttling")%string eqn:Hc.
    + apply String.eqb_eq in Hc; subst code.
      eapply Hretry; [eassumption|apply IH].
    + apply Hgive; assumption.
Qed.

(** The events of one attempt: the describe call, then possibly the policy
    fetch, then possibly the action fetch. *)
Lemma try_body_events w tr :
  exists tl,
    trace_of (try_body P name (w, tr)) = (tr ++ EvDescribe name :: tl)%list /\
    (tl = [] \/ tl = [EvGetAllPolicies name] \/
     tl = [EvGetAllPolicies name; EvGetAllScheduledActions name]).
Proof.
  rewrite try_body_frame. unfold trace_of at 1. simpl.
  unfold try_body, bind, call, lift, ret, trace_of; simpl.
  destruct (describe_auto_scaling_groups P name w) as [[full|e] w1]; simpl;
    [|exists []; auto].
  destruct (getitem full "AutoScalingGroups") as [groups|e]; simpl;
    [|exists []; auto].
  destruct (next_or_none groups) as [asg|e]; simpl; [|exists []; auto].
  destruct (truthy asg); simpl; [|exists []; auto].
  destruct (copy_attrs asg attr_key_lookup []) as [r|e]; simpl;
    [|exists []; auto].
  destruct (get_all_policies P name w1) as [[policies|e] w2]; simpl;
    [|exists [EvGetAllPolicies name]; auto].
  destruct (get_all_scheduled_actions P name w2) as [[actions|e] w3]; simpl;
    [|exists [EvGetAllPolicies name; EvGetAllScheduledActions name]; auto].
  destruct (set_actions actions []) as [d|e]; simpl;
    exists [EvGetAllPolicies name; EvGetAllScheduledActions name]; auto.
Qed.

End LoopRule.

(** ** Counting the other events *)

Lemma slept_app a b : slept (a ++ b) = (slept a ++ slept b)%list.
Proof.
  induction a as [|ev a IH]; simpl; [reflexivity|].
  destruct ev; simpl; rewrite IH; reflexivity.
Qed.

Ltac tally :=
  unfold sleeps, attempts, errors_logged, retries_logged, policy_fetches,
    action_fetches, trace_of, value_of, sleep, emit, log_throttled in *;
  cbn [fst snd] in *;
  rewrite ?slept_app, ?filter_app, ?length_app in *;
  cbn [filter length app slept is_sleep is_describe is_log_error is_log_debug
         is_policy_fetch is_action_fetch] in *.

(** Names the trace an attempt ends with. *)
Ltac attempt_trace P name Hb :=
  match type of Hb with
  | try_body P name ?st = (_, ?st') =>
      let w := fresh "w" in
      let tr := fresh "tr" in
      let w' := fresh "w'" in
      let tr' := fresh "tr'" in
      let tl := fresh "tl" in
      let Htl := fresh "Htl" in
      let Hshape := fresh "Hshape" in
      destruct st as [w tr]; destruct st' as [w' tr'];
      destruct (try_body_events P name w tr) as (tl & Htl & Hshape);
      rewrite Hb in Htl; unfold trace_of in Htl; cbn [fst snd] in Htl;
      subst tr'; destruct Hshape as [-> | [-> | ->]]
  end.

Section Invariants.

Context {W : Type} (P : provider W) (name : string).

Lemma loop_attempts_sleeps retries st :
  (attempts (trace_of (get_config_loop P retries name st)) + sleeps (snd st)
   = attempts (snd st) + sleeps (trace_of (get_config_loop P retries name st)) + 1)%nat.
Proof.
  revert retries st.
  apply (loop_rule P name
           (fun st run =>
              (attempts (trace_of run) + sleeps (snd st)
               = attempts (snd st) + sleeps (trace_of run) + 1)%nat)).
  - intros st v st' Hb. attempt_trace P name Hb; tally; lia.
  - intros st e st' Hb _. attempt_trace P name Hb; tally; lia.
  - intros st code st' Hb. attempt_trace P name Hb; tally; lia.
  - intros st st' run Hb IH. attempt_trace P name Hb; tally; lia.
Qed.

Lemma loop_slept retries st :
  exists n,
    slept (trace_of (get_config_loop P retries name st))
      = (slept (snd st) ++ repeat 5 n)%list /\
    sleeps (trace_of (get_config_loop P retries name st))
      = (sleeps (snd st) + n)%nat /\
    retries_logged (trace_of (get_config_loop P retries name st))
      = (retries_logged (snd st) + n)%nat.
Proof.
  revert retries st.
  apply (loop_rule P name
           (fun st run =>
              exists n,
                slept (trace_of run) = (slept (snd st) ++ repeat 5 n)%list /\
                sleeps (trace_of run) = (sleeps (snd st) + n)%nat /\
                retries_logged (trace_of run) = (retries_logged (snd st) + n)%nat)).
  - intros st v st' Hb. exists O.
    attempt_trace P name Hb; tally; rewrite ?app_nil_r; repeat split; lia.
  - intros st e st' Hb _. exists O.
    attempt_trace P name Hb; tally; rewrite ?app_nil_r; repeat split; lia.
  - intros st code st' Hb. exists O.
    attempt_trace P name Hb; tally; rewrite ?app_nil_r; repeat split; lia.
  - intros st st' run Hb (n & Hs & Hn & Hl). exists (S n).
    attempt_trace P name Hb; tally; rewrite ?app_nil_r in *;
      (split; [rewrite Hs, <- ?app_assoc; reflexivity|split; lia]).
Qed.

Lemma loop_fetches retries st :
  (policy_fetches (trace_of (get_config_loop P retries name st))
     + attempts (snd st)
   <= policy_fetches (snd st)
      + attempts (trace_of (get_config_loop P retries name st)))%nat /\
  (action_fetches (trace_of (get_config_loop P retries name st))
     + policy_fetches (snd st)
   <= action_fetches (snd st)
      + policy_fetches (trace_of (get_config_loop P retries name st)))%nat.
Proof.
  revert retries st.
  apply (loop_rule P name
           (fun st run =>
              (policy_fetches (trace_of run) + attempts (snd st)
               <= policy_fetches (snd st) + attempts (trace_of run))%nat /\
              (action_fetches (trace_of run) + policy_fetches (snd st)
               <= action_fetches (snd st) + policy_fetches (trace_of run))%nat)).
  - intros st v st' Hb. attempt_trace P name Hb; tally; lia.
  - intros st e st' Hb _. attempt_trace P name Hb; tally; lia.
  - intros st code st' Hb. attempt_trace P name Hb; tally; lia.
  - intros st st' run Hb IH. attempt_trace P name Hb; tally; lia.
Qed.

Lemma loop_errors retries st :
  errors_logged (trace_of (get_config_loop P retries name st))
    = errors_logged (snd st)
  \/
  (errors_logged (trace_of (get_config_loop P retries name st))
     = S (errors_logged (snd st)) /\
   value_of (get_config_loop P retries name st) = Ok (VDict []) /\
   exists tr0 code,
     trace_of (get_config_loop P retries name st)
     = (tr0 ++ [EvLogError (BotoServerError code)])%list).
Proof.
  revert retries st.
  apply (loop_rule P name
           (fun st run =>
              errors_logged (trace_of run) = errors_logged (snd st) \/
              (errors_logged (trace_of run) = S (errors_logged (snd st)) /\
               value_of run = Ok (VDict []) /\
               exists tr0 code,
                 trace_of run = (tr0 ++ [EvLogError (BotoServerError code)])%list))).
  - intros st v st' Hb. left. attempt_trace P name Hb; tally; lia.
  - intros st e st' Hb _. left. attempt_trace P name Hb; tally; lia.
  - intros st code st' Hb. right.
    split; [attempt_trace P name Hb; tally; lia|].
    split; [reflexivity|]. unfold trace_of, emit; cbn [fst snd]. eauto.
  - intros st st' run Hb [IH|(IH & Hv & Hlast)].
    + left. attempt_trace P name Hb; tally; lia.
    + right. split; [attempt_trace P name Hb; tally; lia|]. auto.
Qed.

End Invariants.

(** ** What every call does, whatever the collaborators answer *)

(** X1: a call asks for the group exactly once more than it sleeps; it sleeps
    at most 30 times and so asks at most 31 times. *)
Theorem one_more_attempt_than_sleeps {W : Type} (P : provider W) (name : string)
    (w : W) :
  attempts (trace_of (get_config P name w))
    = S (sleeps (trace_of (get_config P name w))) /\
  (sleeps (trace_of (get_config P name w)) <= 30)%nat /\
  (attempts (trace_of (get_config P name w)) <= 31)%nat.
Proof.
  pose proof (loop_attempts_sleeps P name 30 (w, [])) as H.
  pose proof (loop_budget P name 30 (w, [])) as [Hs Ha].
  unfold get_config. cbn [snd] in *. rewrite sleeps_nil, attempts_nil in *.
  repeat split; lia.
Qed.

(** X2: the backoff is fixed: every sleep of a call lasts five seconds, and
    each is announced by one debug record. *)
Theorem fixed_backoff {W : Type} (P : provider W) (name : string) (w : W) :
  slept (trace_of (get_config P name w))
    = repeat 5 (sleeps (trace_of (get_config P name w))) /\
  retries_logged (trace_of (get_config P name w))
    = sleeps (trace_of (get_config P name w)).
Proof.
  destruct (loop_slept P name 30 (w, [])) as (n & Hs & Hn & Hl).
  unfold get_config. cbn [snd slept app] in *.
  rewrite sleeps_nil in Hn. change (retries_logged []) with O in Hl.
  cbn [Nat.add] in *. rewrite Hs, Hn, Hl. split; reflexivity.
Qed.

(** X3: a call fetches the scheduled actions no more often than the
    policies, and the policies no more often than it asks for the group. *)
Theorem fetches_follow_attempts {W : Type} (P : provider W) (name : string)
    (w : W) :
  (action_fetches (trace_of (get_config P name w))
     <= policy_fetches (trace_of (get_config P name w)))%nat /\
  (policy_fetches (trace_of (get_config P name w))
     <= attempts (trace_of (get_config P name w)))%nat.
Proof.
  pose proof (loop_fetches P name 30 (w, [])) as [Hp Ha].
  unfold get_config. cbn [snd] in *.
  change (attempts []) with O in *. change (policy_fetches []) with O in *.
  change (action_fetches []) with O in *.
  split; lia.
Qed.

(** X4: a call logs an error at most once.  When it does, the error is a
    [BotoServerError], the log record is the last thing the call does, and
    the result is the empty record; a call that returns a non-empty record,
    or that raises, has logged no error. *)
Theorem error_logged_once {W : Type} (P : provider W) (name : string) (w : W) :
  errors_logged (trace_of (get_config P name w)) = O
  \/
  (errors_logged (trace_of (get_config P name w)) = 1%nat /\
   value_of (get_config P name w) = Ok (VDict []) /\
   exists tr0 code,
     trace_of (get_config P name w)
     = (tr0 ++ [EvLogError (BotoServerError code)])%list).
Proof.
  destruct (loop_errors P name 30 (w, [])) as [H|H]; [left|right]; exact H.
Qed.

Section Outcome.

Context {W : Type} (P : provider W) (name : string).

Lemma try_body_value st v st' :
  try_body P name st = (Ok v, st') -> v = VDict [] \/ truthy v = true.
Proof.
  destruct st as [w tr].
  unfold try_body, bind, call, lift, ret; simpl.
  destruct (describe_auto_scaling_groups P name w) as [[full|e] w1]; simpl;
    [|discriminate].
  destruct (getitem full "AutoScalingGroups") as [groups|e]; simpl;
    [|discriminate].
  destruct (next_or_none groups) as [asg|e]; simpl; [|discriminate].
  destruct (truthy asg); simpl; [|intros H; inversion H; auto].
  destruct (copy_attrs asg attr_key_lookup []) as [r|e]; simpl; [|discriminate].
  destruct (get_all_policies P name w1) as [[policies|e] w2]; simpl;
    [|discriminate].
  destruct (get_all_scheduled_actions P name w2) as [[actions|e] w3]; simpl;
    [|discriminate].
  destruct (set_actions actions []) as [d|e]; simpl; [|discriminate].
  intros H; inversion H; subst. right. apply od_set_truthy.
Qed.

Lemma try_body_complete st v st' :
  try_body P name st = (Ok v, st') ->
  v = VDict [] \/ exists entries, v = VDict entries /\ map fst entries = the_keys.
Proof.
  intros Hb. destruct (try_body_value _ _ _ Hb) as [Hv|Hv]; [left; exact Hv|].
  right. destruct (try_body_record P _ _ _ _ Hb Hv) as (asg & ps & acts & _ & Ha).
  destruct (assemble_inv _ _ _ _ Ha) as (r & scheduled & Hr & _ & ->).
  destruct (copy_attrs_inv _ _ Hr)
    as (v1 & v2 & v3 & v4 & v5 & v6 & v7 & v8 & v9 & v10 & v11 & v12 & v13
        & v14 & v15 & v16 & v17 & v18 & v19 & v20 & H).
  repeat match type of H with _ /\ _ => destruct H as [_ H] end. subst r.
  eexists. split; reflexivity.
Qed.

Lemma loop_outcome retries st :
  match value_of (get_config_loop P retries name st) with
  | Ok v =>
      v = VDict [] \/
      exists entries, v = VDict entries /\ map fst entries = the_keys
  | Raise e => forall code, e <> BotoServerError code
  end.
Proof.
  revert retries st.
  apply (loop_rule P name
           (fun st run =>
              match value_of run with
              | Ok v =>
                  v = VDict [] \/
                  exists entries, v = VDict entries /\ map fst entries = the_keys
              | Raise e => forall code, e <> BotoServerError code
              end)).
  - intros st v st' Hb. unfold value_of; cbn [fst].
    eapply try_body_complete; eassumption.
  - intros st e st' _ He. exact He.
  - intros st code st' _. left. reflexivity.
  - intros st st' run _ IH. exact IH.
Qed.

End Outcome.

(** X5: a call has one of three outcomes, and never a partial record: it
    returns the empty record, or it returns a record with all sixteen keys,
    or it raises an exception that is not a [BotoServerError]. *)
Theorem three_outcomes {W : Type} (P : provider W) (name : string) (w : W) :
  match value_of (get_config P name w) with
  | Ok v =>
      v = VDict [] \/
      exists entries, v = VDict entries /\ map fst entries = the_keys
  | Raise e => forall code, e <> BotoServerError code
  end.
Proof. apply loop_outcome. Qed.

(** ** Failures of the describe call and of its answer *)

Lemma not_boto_server_error e :
  is_boto_server_error e = false -> forall code, e <> BotoServerError code.
Proof. intros H code ->. discriminate. Qed.

(** X6: a [BotoServerError] of the describe call whose code is not
    [Throttling] ends the call at once: the error is logged and the empty
    record returned, without a sleep or a second attempt. *)
Theorem describe_error_gives_empty {W : Type} (P : provider W) (name : string)
    (w w1 : W) (code : string) :
  describe_auto_scaling_groups P name w = (Raise (BotoServerError code), w1) ->
  (code =? "Throttling")%string = false ->
  get_config P name w
  = (Ok (VDict []),
     (w1, [EvDescribe name; EvLogError (BotoServerError code)])).
Proof.
  intros Hd Hcode. unfold get_config.
  rewrite (loop_gives_up P 30 name (w, []) code
             (w1, ([] ++ [EvDescribe name])%list)).
  - reflexivity.
  - apply try_body_throttled. exact Hd.
  - right. apply String.eqb_neq. exact Hcode.
Qed.

Lemma describe_error_gives_empty_witness :
  get_config scripted "web-asg"
    (describe_failing (BotoServerError "AccessDenied"))
  = (Ok (VDict []),
     (calm web_asg [nightly_scale],
      [EvDescribe "web-asg"; EvLogError (BotoServerError "AccessDenied")])).
Proof.
  apply (describe_error_gives_empty scripted "web-asg"
           (describe_failing (BotoServerError "AccessDenied"))
           (calm web_asg [nightly_scale]) "AccessDenied");
    reflexivity.
Defined.

(** X7: an exception of the describe call that is not a [BotoServerError]
    is not caught: it reaches the caller after that single call, with no
    sleep, no retry and nothing logged, whatever it says about throttling. *)
Theorem other_exception_propagates {W : Type} (P : provider W) (name : string)
    (w w1 : W) (e : exn) :
  describe_auto_scaling_groups P name w = (Raise e, w1) ->
  is_boto_server_error e = false ->
  get_config P name w = (Raise e, (w1, [EvDescribe name])).
Proof.
  intros Hd He. unfold get_config.
  apply loop_propagates;
    [apply try_body_throttled; exact Hd | apply not_boto_server_error; exact He].
Qed.

Lemma other_exception_propagates_witness :
  get_config scripted "web-asg" (describe_failing (OtherError "ClientError"))
  = (Raise (OtherError "ClientError"),
     (calm web_asg [nightly_scale], [EvDescribe "web-asg"])).
Proof.
  apply (other_exception_propagates scripted "web-asg"
           (describe_failing (OtherError "ClientError"))
           (calm web_asg [nightly_scale]) (OtherError "ClientError"));
    reflexivity.
Defined.

(** X8: when the first group of the answer is falsy (an empty dictionary,
    [None]), the call returns the empty record after the describe call,
    whatever groups follow it in the answer; the policies and the actions
    are not fetched. *)
Theorem falsy_first_group {W : Type} (P : provider W) (name : string)
    (w w1 : W) (full groups first : pyval) (others : list pyval) :
  describe_auto_scaling_groups P name w = (Ok full, w1) ->
  getitem full "AutoScalingGroups" = Ok groups ->
  py_iter groups = Ok (first :: others) ->
  truthy first = false ->
  get_config P name w = (Ok (VDict []), (w1, [EvDescribe name])).
Proof.
  intros Hd Hg Hi Ht. unfold get_config. apply loop_returns.
  unfold try_body, bind, call, lift, ret, next_or_none; simpl.
  rewrite Hd; simpl. rewrite Hg; simpl. rewrite Hi; simpl. rewrite Ht; simpl.
  reflexivity.
Qed.

Lemma falsy_first_group_witness :
  get_config scripted "web-asg" first_group_empty
  = (Ok (VDict []), (first_group_empty, [EvDescribe "web-asg"])).
Proof.
  apply (falsy_first_group scripted "web-asg" first_group_empty
           first_group_empty
           (VDict [("AutoScalingGroups", VList [VDict []; web_asg])])
           (VList [VDict []; web_asg]) (VDict []) [web_asg]);
    reflexivity.
Defined.

Lemma getitem_raises obj key e :
  getitem obj key = Raise e -> is_boto_server_error e = false.
Proof.
  destruct obj as [|b|z|f|s|d|l|d]; simpl;
    try (intros H; inversion H; reflexivity).
  destruct (od_get key d); [discriminate|].
  intros H; inversion H; reflexivity.
Qed.

(** X9: when the group that was found lacks one of the first ten provider
    fields of the rename table, the fields before it being there, the call
    raises [KeyError] for that field right after the describe call: nothing
    else is fetched, nothing is retried and no record is returned. *)
Theorem missing_field_raises {W : Type} (P : provider W) (name : string)
    (w w1 : W) (asg : pyval) (i : nat) (attr keyname : string) :
  described P name w asg w1 ->
  nth_error attr_key_lookup i = Some (attr, keyname) ->
  (i < 10)%nat ->
  (forall j a k,
      (j < i)%nat -> nth_error attr_key_lookup j = Some (a, k) ->
      exists x, getitem asg k = Ok x) ->
  getitem asg keyname = Raise (KeyError keyname) ->
  get_config P name w = (Raise (KeyError keyname), (w1, [EvDescribe name])).
Proof.
  intros (full & groups & Hd & Hg & Hn & Ht) Hnth Hi Hprev Hmiss.
  assert (Hc : copy_attrs asg attr_key_lookup [] = Raise (KeyError keyname)).
  { do 10 (destruct i as [|i];
           [ simpl in Hnth; inversion Hnth; subst attr keyname; clear Hnth;
             try (destruct (Hprev 0%nat _ _ ltac:(lia) eq_refl) as [? ?]);
             try (destruct (Hprev 1%nat _ _ ltac:(lia) eq_refl) as [? ?]);
             try (destruct (Hprev 2%nat _ _ ltac:(lia) eq_refl) as [? ?]);
             try (destruct (Hprev 3%nat _ _ ltac:(lia) eq_refl) as [? ?]);
             try (destruct (Hprev 4%nat _ _ ltac:(lia) eq_refl) as [? ?]);
             try (destruct (Hprev 5%nat _ _ ltac:(lia) eq_refl) as [? ?]);
             try (destruct (Hprev 6%nat _ _ ltac:(lia) eq_refl) as [? ?]);
             try (destruct (Hprev 7%nat _ _ ltac:(lia) eq_refl) as [? ?]);
             try (destruct (Hprev 8%nat _ _ ltac:(lia) eq_refl) as [? ?]);
             unfold copy_attrs, attr_key_lookup, set_attr;
             cbn [String.eqb Ascii.eqb Bool.eqb];
             repeat match goal with
                    | H : getitem asg _ = _ |- _ =>
                        rewrite H; cbn [rbind od_set String.eqb Ascii.eqb Bool.eqb]
                    end;
             reflexivity
           | ]).
    lia. }
  unfold get_config. apply loop_propagates; [|intros code; discriminate].
  unfold try_body, bind, call, lift, ret; simpl.
  rewrite Hd; simpl. rewrite Hg; simpl. rewrite Hn; simpl. rewrite Ht; simpl.
  rewrite Hc; simpl. reflexivity.
Qed.

Lemma missing_field_raises_witness :
  get_config scripted "web-asg" (calm asg_without_max_size [nightly_scale])
  = (Raise (KeyError "MaxSize"),
     (calm asg_without_max_size [nightly_scale], [EvDescribe "web-asg"])).
Proof.
  apply (missing_field_raises scripted "web-asg"
           (calm asg_without_max_size [nightly_scale])
           (calm asg_without_max_size [nightly_scale])
           asg_without_max_size 8 "max_size" "MaxSize").
  - exists (VDict [("AutoScalingGroups", VList [asg_without_max_size])]),
      (VList [asg_without_max_size]).
    repeat split; reflexivity.
  - reflexivity.
  - lia.
  - intros j a k Hj Hnth.
    do 8 (destruct j as [|j];
          [simpl in Hnth; inversion Hnth; subst; eexists; reflexivity|]).
    lia.
  - reflexivity.
Defined.

(** ** The rest of the returned record *)

Example busy_run :
  get_config scripted "web-asg" busy = (Ok busy_record, busy_trace_end).
Proof. vm_compute. reflexivity. Qed.

Lemma rmap_Forall2 {A B : Type} (f : A -> result B) (l : list A) :
  forall l', rmap f l = Ok l' -> Forall2 (fun a b => f a = Ok b) l l'.
Proof.
  induction l as [|a l IH]; intros l' H; simpl in H.
  - inversion H; constructor.
  - destruct (f a) as [b|e] eqn:Hf; simpl in H; [|discriminate].
    destruct (rmap f l) as [bs|e]; simpl in H; [|discriminate].
    inversion H; subst. constructor; [exact Hf|apply IH; reflexivity].
Qed.

Lemma tag_record_inv tag out : tag_record tag = Ok out -> tag_of tag out.
Proof.
  unfold tag_record, tag_of.
  destruct (getitem tag "Key") as [k|e]; simpl; [|discriminate].
  destruct (getitem tag "Value") as [v|e]; simpl; [|discriminate].
  destruct (getitem tag "PropagateAtLaunch") as [p|e]; simpl; [|discriminate].
  intros H; inversion H; subst. exists k, v, p. repeat split.
Qed.

(** X10: whenever a record is returned, each of the eleven plain entries of
    the rename table holds, under its caller-facing name, the very value the
    provider gave under its own field name. *)
Theorem fields_copied_as_is {W : Type} (P : provider W) (name : string)
    (w : W) (v : pyval) (st' : state) :
  get_config P name w = (Ok v, st') ->
  truthy v = true ->
  exists st1 asg policies actions,
    fetched P name st1 asg policies actions st' /\
    forall attr keyname,
      In (attr, keyname) copied_as_is ->
      exists x, getitem asg keyname = Ok x /\ getitem v attr = Ok x.
Proof.
  intros H Hv. open_record H Hv.
  exists st1, asg, policies, actions. split; [assumption|].
  intros attr keyname Hin. simpl in Hin.
  repeat (destruct Hin as [Hin|Hin];
          [inversion Hin; subst attr keyname; eexists; split;
           [eassumption|reflexivity]|]).
  contradiction.
Qed.

Lemma fields_copied_as_is_witness :
  exists st1 asg policies actions,
    fetched scripted "web-asg" st1 asg policies actions busy_trace_end /\
    forall attr keyname,
      In (attr, keyname) copied_as_is ->
      exists x, getitem asg keyname = Ok x /\ getitem busy_record attr = Ok x.
Proof.
  apply (fields_copied_as_is scripted "web-asg" busy busy_record busy_trace_end);
    vm_compute; reflexivity.
Defined.

(** X11: whenever a record is returned, its [tags] entry lists one record
    per tag of the provider, in the provider's order, with the three entries
    [key], [value] and [propagate_at_launch] taken from the tag's [Key],
    [Value] and [PropagateAtLaunch]. *)
Theorem tags_expanded {W : Type} (P : provider W) (name : string)
    (w : W) (v : pyval) (st' : state) :
  get_config P name w = (Ok v, st') ->
  truthy v = true ->
  exists st1 asg policies actions raw tags out,
    fetched P name st1 asg policies actions st' /\
    getitem asg "Tags" = Ok raw /\
    py_iter raw = Ok tags /\
    getitem v "tags" = Ok (VList out) /\
    Forall2 tag_of tags out.
Proof.
  intros H Hv. open_record H Hv.
  exists st1, asg, policies, actions, raw_tags, tags, v_tags.
  repeat (split; [first [assumption | reflexivity]|]).
  apply rmap_Forall2 in H_tagrec.
  eapply Forall2_impl; [|exact H_tagrec].
  intros tag out. apply tag_record_inv.
Qed.

Lemma tags_expanded_witness :
  exists st1 asg policies actions raw tags out,
    fetched scripted "web-asg" st1 asg policies actions busy_trace_end /\
    getitem asg "Tags" = Ok raw /\
    py_iter raw = Ok tags /\
    getitem busy_record "tags" = Ok (VList out) /\
    Forall2 tag_of tags out.
Proof.
  apply (tags_expanded scripted "web-asg" busy busy_record busy_trace_end);
    vm_compute; reflexivity.
Defined.

(** X12: whenever a record is returned, its [scaling_policies] entry lists
    one dictionary per policy the provider answered with, in the provider's
    order, holding the policy's name, adjustment type, scaling adjustment,
    minimum adjustment step and cooldown. *)
Theorem scaling_policies_in_order {W : Type} (P : provider W) (name : string)
    (w : W) (v : pyval) (st' : state) :
  get_config P name w = (Ok v, st') ->
  truthy v = true ->
  exists st1 asg policies actions out,
    fetched P name st1 asg policies actions st' /\
    getitem v "scaling_policies" = Ok (VList out) /\
    Forall2 policy_of policies out.
Proof.
  intros H Hv. open_record H Hv.
  exists st1, asg, policies, actions, (map policy_dict policies).
  split; [assumption|]. split; [reflexivity|].
  clear. induction policies as [|p ps IH]; simpl; constructor;
    [reflexivity|exact IH].
Qed.

Lemma scaling_policies_in_order_witness :
  exists st1 asg policies actions out,
    fetched scripted "web-asg" st1 asg policies actions busy_trace_end /\
    getitem busy_record "scaling_policies" = Ok (VList out) /\
    Forall2 policy_of policies out.
Proof.
  apply (scaling_policies_in_order scripted "web-asg" busy busy_record
           busy_trace_end);
    vm_compute; reflexivity.
Defined.

Lemma od_set_keys k v d :
  map fst (od_set k v d)
  = if existsb (String.eqb k) (map fst d) then map fst d
    else (map fst d ++ [k])%list.
Proof.
  induction d as [|[k' v'] d IH]; simpl; [reflexivity|].
  rewrite (String.eqb_sym k k').
  destruct (k' =? k)%string; simpl; [reflexivity|].
  rewrite IH. destruct (existsb (String.eqb k) (map fst d)); reflexivity.
Qed.

(** The keys of the mapping built by the loop over the actions. *)
Lemma set_actions_keys actions : forall d r,
  set_actions actions d = Ok r ->
  map fst r
  = (map fst d ++ first_occurrences (map action_name actions) (map fst d))%list.
Proof.
  induction actions as [|a actions IH]; intros d r H; simpl in H.
  - inversion H; subst. simpl. rewrite app_nil_r. reflexivity.
  - destruct (action_dict a) as [entry|e]; simpl in H; [|discriminate].
    rewrite (IH _ _ H), od_set_keys. simpl.
    destruct (existsb (String.eqb (action_name a)) (map fst d)).
    + reflexivity.
    + rewrite <- app_assoc. reflexivity.
Qed.

(** Every action went through the body of the loop. *)
Lemma set_actions_all actions : forall d r,
  set_actions actions d = Ok r ->
  Forall (fun a => exists entry, action_dict a = Ok entry) actions.
Proof.
  induction actions as [|a actions IH]; intros d r H; simpl in H.
  - constructor.
  - destruct (action_dict a) as [entry|e] eqn:Ha; simpl in H; [|discriminate].
    constructor; [eauto|eapply IH; exact H].
Qed.

(** X13: whenever a record is returned, the entry of a scheduled action has
    the six keys [min_size], [max_size], [desired_capacity], [start_time],
    [end_time], [recurrence] in that order, and its [min_size], [max_size]
    and [recurrence] are those of the last action of that name, as the
    provider gave them. *)
Theorem scheduled_action_fields {W : Type} (P : provider W) (name : string)
    (w : W) (v : pyval) (st' : state) :
  get_config P name w = (Ok v, st') ->
  truthy v = true ->
  exists st1 asg policies actions scheduled,
    fetched P name st1 asg policies actions st' /\
    getitem v "scheduled_actions" = Ok (VDict scheduled) /\
    forall k a,
      last_named k actions = Some a ->
      exists desired start_time end_time,
        od_get k scheduled
        = Some (VDict [ ("min_size", action_min_size a);
                        ("max_size", action_max_size a);
                        ("desired_capacity", desired);
                        ("start_time", start_time);
                        ("end_time", end_time);
                        ("recurrence", action_recurrence a) ]).
Proof.
  intros H Hv. open_record H Hv.
  exists st1, asg, policies, actions, scheduled.
  split; [assumption|]. split; [reflexivity|].
  intros k a Hlast. pose proof (set_actions_spec _ _ _ Hactions k) as Hspec.
  rewrite Hlast in Hspec. destruct Hspec as (entry & Hdict & Hget).
  destruct (action_dict_inv _ _ Hdict) as (v_end & z & start & _ & _ & _ & ->).
  eauto.
Qed.

Lemma scheduled_action_fields_witness :
  exists st1 asg policies actions scheduled,
    fetched scripted "web-asg" st1 asg policies actions busy_trace_end /\
    getitem busy_record "scheduled_actions" = Ok (VDict scheduled) /\
    forall k a,
      last_named k actions = Some a ->
      exists desired start_time end_time,
        od_get k scheduled
        = Some (VDict [ ("min_size", action_min_size a);
                        ("max_size", action_max_size a);
                        ("desired_capacity", desired);
                        ("start_time", start_time);
                        ("end_time", end_time);
                        ("recurrence", action_recurrence a) ]).
Proof.
  apply (scheduled_action_fields scripted "web-asg" busy busy_record
           busy_trace_end);
    vm_compute; reflexivity.
Defined.

(** X14: whenever a record is returned, the keys of its [scheduled_actions]
    mapping are the distinct names of the provider's actions, each once, in
    the order in which the names first appear: a later action of the same
    name replaces the entry but does not move it. *)
Theorem scheduled_action_names {W : Type} (P : provider W) (name : string)
    (w : W) (v : pyval) (st' : state) :
  get_config P name w = (Ok v, st') ->
  truthy v = true ->
  exists st1 asg policies actions scheduled,
    fetched P name st1 asg policies actions st' /\
    getitem v "scheduled_actions" = Ok (VDict scheduled) /\
    map fst scheduled = first_occurrences (map action_name actions) [].
Proof.
  intros H Hv. open_record H Hv.
  exists st1, asg, policies, actions, scheduled.
  split; [assumption|]. split; [reflexivity|].
  apply (set_actions_keys _ _ _ Hactions).
Qed.

Lemma scheduled_action_names_witness :
  exists st1 asg policies actions scheduled,
    fetched scripted "web-asg" st1 asg policies actions busy_trace_end /\
    getitem busy_record "scheduled_actions" = Ok (VDict scheduled) /\
    map fst scheduled = first_occurrences (map action_name actions) [].
Proof.
  apply (scheduled_action_names scripted "web-asg" busy busy_record
           busy_trace_end);
    vm_compute; reflexivity.
Defined.

(** X15: a record is returned only if every action the provider answered
    with could be projected, also one that a later action of the same name
    replaces: each has a datetime as start time, a desired capacity that
    [int] accepts, and an end time that is falsy or a datetime. *)
Theorem every_action_is_projected {W : Type} (P : provider W) (name : string)
    (w : W) (v : pyval) (st' : state) :
  get_config P name w = (Ok v, st') ->
  truthy v = true ->
  exists st1 asg policies actions,
    fetched P name st1 asg policies actions st' /\
    forall a, In a actions ->
      (exists d, action_start_time a = VDatetime d) /\
      (exists z, py_int (action_desired_capacity a) = Ok (VInt z)) /\
      (truthy (action_end_time a) = true ->
       exists d, action_end_time a = VDatetime d).
Proof.
  intros H Hv. open_record H Hv.
  exists st1, asg, policies, actions. split; [assumption|].
  intros a Hin.
  pose proof (set_actions_all _ _ _ Hactions) as Hall.
  rewrite Forall_forall in Hall. destruct (Hall a Hin) as [entry Hdict].
  destruct (action_dict_inv _ _ Hdict)
    as (v_end & z & start & Hend & Hint & Hstart & _).
  split; [eauto|]. split; [eauto|].
  intros Ht. rewrite Ht in Hend. destruct Hend as (d & Hd & _). eauto.
Qed.

Lemma every_action_is_projected_witness :
  exists st1 asg policies actions,
    fetched scripted "web-asg" st1 asg policies actions busy_trace_end /\
    forall a, In a actions ->
      (exists d, action_start_time a = VDatetime d) /\
      (exists z, py_int (action_desired_capacity a) = Ok (VInt z)) /\
      (truthy (action_end_time a) = true ->
       exists d, action_end_time a = VDatetime d).
Proof.
  apply (every_action_is_projected scripted "web-asg" busy busy_record
           busy_trace_end);
    vm_compute; reflexivity.
Defined.

(** *** Splitting loses nothing *)

Lemma concat_split_on s : String.concat "," (split_on "," s) = s.
Proof.
  induction s as [|c s IH]; simpl; [reflexivity|].
  destruct (Ascii.eqb c ",") eqn:Hc.
  - apply Ascii.eqb_eq in Hc; subst c.
    destruct (split_on "," s) as [|piece pieces] eqn:Hs;
      [exfalso; eapply split_on_not_nil; exact Hs|].
    simpl. simpl in IH. rewrite IH. reflexivity.
  - destruct (split_on "," s) as [|piece pieces] eqn:Hs;
      [exfalso; eapply split_on_not_nil; exact Hs|].
    simpl in *. destruct pieces as [|piece' pieces].
    + rewrite IH. reflexivity.
    + simpl. rewrite <- IH. reflexivity.
Qed.

Lemma split_on_pieces_comma_free s :
  forallb comma_free (split_on "," s) = true.
Proof.
  induction s as [|c s IH]; simpl; [reflexivity|].
  destruct (Ascii.eqb c ",") eqn:Hc; simpl; [exact IH|].
  destruct (split_on "," s) as [|piece pieces]; simpl in *.
  - rewrite Hc. reflexivity.
  - rewrite Hc. exact IH.
Qed.

(** X16: whenever a record is returned, joining the strings of its
    [vpc_zone_identifier] entry with commas gives back the provider's string,
    and none of these strings holds a comma: the split loses and invents
    nothing. *)
Theorem vpc_zone_identifier_joins_back {W : Type} (P : provider W)
    (name : string) (w : W) (v : pyval) (st' : state) :
  get_config P name w = (Ok v, st') ->
  truthy v = true ->
  exists st1 asg policies actions s pieces,
    fetched P name st1 asg policies actions st' /\
    getitem asg "VPCZoneIdentifier" = Ok (VStr s) /\
    getitem v "vpc_zone_identifier" = Ok (VList (map VStr pieces)) /\
    String.concat "," pieces = s /\
    forallb comma_free pieces = true.
Proof.
  intros H Hv. open_record H Hv.
  destruct raw_vpc as [|b|z|f|s|d|l|d]; simpl in H_split; try discriminate.
  inversion H_split; subst v_vpc; clear H_split.
  exists st1, asg, policies, actions, s, (split_on "," s).
  split; [assumption|]. split; [assumption|]. split; [reflexivity|].
  split; [apply concat_split_on|apply split_on_pieces_comma_free].
Qed.

Lemma vpc_zone_identifier_joins_back_witness :
  exists st1 asg policies actions s pieces,
    fetched scripted "web-asg" st1 asg policies actions busy_trace_end /\
    getitem asg "VPCZoneIdentifier" = Ok (VStr s) /\
    getitem busy_record "vpc_zone_identifier" = Ok (VList (map VStr pieces)) /\
    String.concat "," pieces = s /\
    forallb comma_free pieces = true.
Proof.
  apply (vpc_zone_identifier_joins_back scripted "web-asg" busy busy_record
           busy_trace_end);
    vm_compute; reflexivity.
Defined.

(** X17: when the answer of the describe call cannot be subscripted with
    [AutoScalingGroups] (the key is missing, or the answer is no
    dictionary), the exception of the subscript reaches the caller after
    that single call; it is never taken for a missing group. *)
Theorem missing_groups_key_raises {W : Type} (P : provider W) (name : string)
    (w w1 : W) (full : pyval) (e : exn) :
  describe_auto_scaling_groups P name w = (Ok full, w1) ->
  getitem full "AutoScalingGroups" = Raise e ->
  get_config P name w = (Raise e, (w1, [EvDescribe name])) /\
  is_boto_server_error e = false.
Proof.
  intros Hd Hg. pose proof (getitem_raises _ _ _ Hg) as He.
  split; [|exact He].
  unfold get_config. apply loop_propagates;
    [|apply not_boto_server_error; exact He].
  unfold try_body, bind, call, lift, ret; simpl.
  rewrite Hd; simpl. rewrite Hg; simpl. reflexivity.
Qed.

Lemma missing_groups_key_raises_witness :
  get_config scripted "web-asg" answer_without_groups
    = (Raise (KeyError "AutoScalingGroups"),
       (answer_without_groups, [EvDescribe "web-asg"])) /\
  is_boto_server_error (KeyError "AutoScalingGroups") = false.
Proof.
  apply (missing_groups_key_raises scripted "web-asg" answer_without_groups
           answer_without_groups (VDict [("NextToken", VNone)])
           (KeyError "AutoScalingGroups"));
    reflexivity.
Defined.
